(** * The self-assessment workflow of [self_assessment_module.py]

    A shallow embedding of [SelfAssessmentModule] (the handlers
    [save_answer], [save_assessment], [save_hint], the router [handle_ajax]
    and the view assemblers [get_rubric_html], [get_hint_html],
    [get_message_html]) and of [SelfAssessmentDescriptor.definition_from_xml],
    followed by the properties the specification states about them.

    Python objects are modelled as follows.
    - [self] is a record that every method threads explicitly; a method is a
      function from the instance to an outcome and the instance it leaves
      behind, so that what a call mutated before raising stays visible.
    - A dictionary ([get], the result envelopes, the template contexts) is
      a [gmap] keyed by strings.
    - An exception is a value of [exn] carried by [Raise]. *)

From Stdlib Require Import ZArith String Ascii List.
From stdpp Require Import base decidable option list gmap strings.

Local Open Scope Z_scope.
Local Open Scope string_scope.
Local Open Scope list_scope.

(** ** Data model *)

(** The four workflow states are class constants of the base class
    [OpenEndedChild]; [self.state] itself is whatever the persisted instance
    state holds.  [Illegal raw] stands for any persisted value that is none
    of the four constants. *)
Inductive WorkflowState : Type :=
| INITIAL
| ASSESSING
| POST_ASSESSMENT
| DONE
| Illegal (raw : string).

#[global] Instance WorkflowState_eq_dec : EqDecision WorkflowState.
Proof. solve_decision. Defined.

Definition defined_states : list WorkflowState :=
  [INITIAL; ASSESSING; POST_ASSESSMENT; DONE].

(** [repr] of a state, as interpolated into the [ValueError] message.  The
    message is only ever built for a state outside the four constants, which
    prints as the persisted value; the constants print as their names. *)
Definition repr (s : WorkflowState) : string :=
  match s with
  | INITIAL => "INITIAL"
  | ASSESSING => "ASSESSING"
  | POST_ASSESSMENT => "POST_ASSESSMENT"
  | DONE => "DONE"
  | Illegal raw => raw
  end.

(** One entry of the history: the answer, and the score and hint once they
    have been recorded. *)
Record AttemptRecord : Type := mkAttempt {
  answer : string;
  score : option Z;
  hint : option string
}.

#[global] Instance AttemptRecord_eq_dec : EqDecision AttemptRecord.
Proof. solve_decision. Defined.

(** The request payload ([request.POST]): a mapping from strings to
    strings. *)
Abbreviation payload := (gmap string string).

(** Values stored in result envelopes and template contexts. *)
Inductive value : Type :=
| VBool (b : bool)
| VInt (z : Z)
| VStr (s : string)
| VState (s : WorkflowState)
| VPayload (g : gmap string string).

Abbreviation dict := (gmap string value).

(** The attributes of a [SelfAssessmentModule] instance that the methods
    read or write. *)
Record SelfAssessmentModule : Type := mkModule {
  state : WorkflowState;
  history : list AttemptRecord;
  attempts : Z;
  max_attempts : Z;
  _max_score : Z;
  prompt : string;
  rubric : string;
  hint_prompt : string;
  submit_message : string
}.

Definition set_state (s : WorkflowState) (self : SelfAssessmentModule)
  : SelfAssessmentModule :=
  mkModule s (history self) (attempts self) (max_attempts self)
           (_max_score self) (prompt self) (rubric self) (hint_prompt self)
           (submit_message self).

Definition set_history (h : list AttemptRecord) (self : SelfAssessmentModule)
  : SelfAssessmentModule :=
  mkModule (state self) h (attempts self) (max_attempts self)
           (_max_score self) (prompt self) (rubric self) (hint_prompt self)
           (submit_message self).

(** The module system handed to every method; only its template renderer is
    used by the methods embedded here. *)
Record ModuleSystem : Type := mkSystem {
  render_template : string -> gmap string value -> string;
  ajax_url : string
}.

(** ** Exceptions and the method monad *)

Inductive exn : Type :=
| ValueError (msg : string)
| KeyError (key : string)
| IndexError.

Inductive outcome (A : Type) : Type :=
| Return (a : A)
| Raise (e : exn).
Arguments Return {A} a.
Arguments Raise {A} e.

#[global] Instance outcome_ret : MRet outcome := fun _ a => Return a.
#[global] Instance outcome_bind : MBind outcome := fun _ _ f m =>
  match m with
  | Return a => f a
  | Raise e => Raise e
  end.

(** A method: it runs on an instance and yields an outcome together with the
    instance as the call left it. *)
Definition M (A : Type) : Type :=
  SelfAssessmentModule -> outcome A * SelfAssessmentModule.

#[global] Instance M_ret : MRet M := fun _ a self => (Return a, self).
#[global] Instance M_bind : MBind M := fun _ _ f m self =>
  match m self with
  | (Return a, self') => f a self'
  | (Raise e, self') => (Raise e, self')
  end.

Definition read : M SelfAssessmentModule := fun self => (Return self, self).
Definition write (f : SelfAssessmentModule -> SelfAssessmentModule) : M unit :=
  fun self => (Return tt, f self).
Definition raise {A : Type} (e : exn) : M A := fun self => (Raise e, self).
Definition lift {A : Type} (o : outcome A) : M A := fun self => (o, self).

(** [d[k]] on a dictionary: the value, or [KeyError]. *)
Definition getitem {V : Type} (d : gmap string V) (k : string) : outcome V :=
  match d !! k with
  | Some v => Return v
  | None => Raise (KeyError k)
  end.

(** [d.update(e)]: the entries of [e] replace those of [d]. *)
Definition update (d e : gmap string value) : gmap string value := e ∪ d.

(** The double quote, for the HTML attribute of the message view. *)
Definition dquote : string := String "034"%char EmptyString.

(** ** The base class [OpenEndedChild]

    [SelfAssessmentModule] inherits its history and state helpers from
    [openendedchild.OpenEndedChild], whose file is not among the sources at
    hand.  Each helper below is written from the specification's description
    of the History Store and of the state machine. *)

(** Modelled from the spec: [new_history_entry] of the absent base class,
    the History Store's [append(answer)]: a new record with the answer set
    and score and hint unset, added after the existing ones. *)
Definition new_history_entry (a : string) : M unit :=
  write (fun self => set_history (history self ++ [mkAttempt a None None]) self).

(** The position of the latest record, [history[-1]]. *)
Definition latest_index (h : list AttemptRecord) : nat := pred (length h).

(** Modelled from the spec: [record_latest_score] of the absent base class,
    the History Store's [set_latest_score(score)]: the score of the latest
    record is set; the specification gives the store no failure mode, and a
    store without records is left as it is. *)
Definition scored (z : Z) (h : list AttemptRecord) : list AttemptRecord :=
  alter (fun r => mkAttempt (answer r) (Some z) (hint r)) (latest_index h) h.

Definition record_latest_score (z : Z) : M unit :=
  write (fun self => set_history (scored z (history self)) self).

(** Modelled from the spec: [record_latest_post_assessment] of the absent
    base class, the History Store's [set_latest_hint(hint)]. *)
Definition hinted (t : string) (h : list AttemptRecord) : list AttemptRecord :=
  alter (fun r => mkAttempt (answer r) (score r) (Some t)) (latest_index h) h.

Definition record_latest_post_assessment (t : string) : M unit :=
  write (fun self => set_history (hinted t (history self)) self).

(** Modelled from the spec: [latest_answer] of the absent base class, the
    most recent answer or none when the store is empty. *)
Definition latest_answer (self : SelfAssessmentModule) : option string :=
  answer <$> last (history self).

(** Modelled from the spec: [latest_score] of the absent base class. *)
Definition latest_score (self : SelfAssessmentModule) : option Z :=
  last (history self) ≫= score.

(** Modelled from the spec: [latest_post_assessment] of the absent base
    class, the History Store's [latest_hint()]. *)
Definition latest_post_assessment (system : ModuleSystem)
    (self : SelfAssessmentModule) : option string :=
  last (history self) ≫= hint.

(** Modelled from the spec: [change_state] of the absent base class; a
    transition of the state table sets the workflow state. *)
Definition change_state (new_state : WorkflowState) : M unit :=
  write (set_state new_state).

(** Modelled from the spec: [_allow_reset] of the absent base class: true
    only when the state is [DONE] and [attempts < max_attempts]. *)
Definition _allow_reset (self : SelfAssessmentModule) : bool :=
  bool_decide (state self = DONE) && bool_decide (attempts self < max_attempts self).

(** Modelled from the spec: [max_score()] of the absent base class, the
    configured ceiling of a self-assigned score. *)
Definition max_score (self : SelfAssessmentModule) : Z := _max_score self.

(** Modelled from the spec: [out_of_sync_error] of the absent base class: a
    structured rejection that carries the caller's payload and mutates
    nothing. *)
Definition out_of_sync_error (get : payload) : M dict :=
  mret ({[ "success" := VBool false;
           "error" := VStr "out-of-sync";
           "payload" := VPayload get ]} : dict).

(** ** XML definitions *)

(** An element of the definition file: its tag, its text and its child
    elements. *)
#[warnings="-register-all"]
Inductive xml : Type :=
| Element (tag : string) (text : string) (children : list xml).

Definition tag_of (x : xml) : string :=
  match x with Element t _ _ => t end.

Definition children_of (x : xml) : list xml :=
  match x with Element _ _ cs => cs end.

(** [xml_object.xpath(k)] for a bare tag name [k]: the child elements of
    [xml_object] with that tag, in document order. *)
Definition xpath (k : string) (xml_object : xml) : list xml :=
  filter (fun c => tag_of c = k) (children_of xml_object).

(** [l[0]]: the first element, or [IndexError]. *)
Definition first_item {A : Type} (l : list A) : outcome A :=
  match l with
  | x :: _ => Return x
  | [] => Raise IndexError
  end.

Definition exactly_one_message (child : string) : string :=
  "Self assessment definition must include exactly one '" +:+ child +:+ "' tag".

(** The loop over [expected_children] of [definition_from_xml]. *)
Fixpoint check_expected_children (expected : list string) (xml_object : xml)
  : outcome unit :=
  match expected with
  | [] => Return tt
  | child :: rest =>
      if bool_decide (length (xpath child xml_object) ≠ 1%nat)
      then Raise (ValueError (exactly_one_message child))
      else check_expected_children rest xml_object
  end.

(** ** Construction and serialisation *)

(** The instance as [setup_response] finds it: the state, history and
    counters are loaded, [prompt] and [rubric] are still the elements of the
    problem definition, and the two texts of the module's own definition are
    not set yet. *)
Record Unconfigured : Type := mkUnconfigured {
  u_state : WorkflowState;
  u_history : list AttemptRecord;
  u_attempts : Z;
  u_max_attempts : Z;
  u_max_score : Z;
  u_prompt : xml;
  u_rubric : xml
}.

(** What [definition_to_xml] can come to: the element it built, the
    [KeyError] of a definition without one of the keys, or the syntax error
    of [etree.fromstring] on the text of a child. *)
Inductive built (A : Type) : Type :=
| Built (a : A)
| MissingKey (k : string)
| XMLSyntaxError (child_str : string).
Arguments Built {A} a.
Arguments MissingKey {A} k.
Arguments XMLSyntaxError {A} child_str.

(** ['<{tag}>{body}</{tag}>'.format(tag=k, body=...)]. *)
Definition child_str (tag body : string) : string :=
  "<" +:+ tag +:+ ">" +:+ body +:+ "</" +:+ tag +:+ ">".

(** [elt.append(child_node)]. *)
Definition append_child (elt child_node : xml) : xml :=
  match elt with
  | Element t txt cs => Element t txt (cs ++ [child_node])
  end.

(** ** Concrete collaborators

    The methods below are parametric in their collaborators.  To run them,
    this part fixes one of each: a reading of decimal integer literals for
    [int], renderers that lay out what they are given, and a progress that
    pairs the latest score with the maximum. *)

Definition is_space (c : ascii) : bool :=
  let n := nat_of_ascii c in
  bool_decide (n = 32%nat) || (bool_decide (9 <= n)%nat && bool_decide (n <= 13)%nat).

Definition digit_of (c : ascii) : option Z :=
  let n := nat_of_ascii c in
  if bool_decide (48 <= n)%nat && bool_decide (n <= 57)%nat
  then Some (Z.of_nat n - 48) else None.

Fixpoint drop_spaces (s : string) : string :=
  match s with
  | String c s' => if is_space c then drop_spaces s' else s
  | EmptyString => s
  end.

Fixpoint all_spaces (s : string) : bool :=
  match s with
  | String c s' => is_space c && all_spaces s'
  | EmptyString => true
  end.

Fixpoint read_digits (acc : Z) (seen : bool) (s : string) : option Z :=
  match s with
  | EmptyString => if seen then Some acc else None
  | String c s' =>
      match digit_of c with
      | Some d => read_digits (10 * acc + d) true s'
      | None => if seen && all_spaces s then Some acc else None
      end
  end.

(** Decimal literals as the built-in [int] reads them from ASCII text:
    surrounding white space, an optional sign, at least one digit. *)
Definition decimal_int (s : string) : option Z :=
  match drop_spaces s with
  | String "+" s' => read_digits 0 false s'
  | String "-" s' => Z.opp <$> read_digits 0 false s'
  | s' => read_digits 0 false s'
  end.

Definition plain_system : ModuleSystem :=
  mkSystem (fun template context =>
              match context !! "read_only" with
              | Some (VBool true) => template +:+ " (read only)"
              | _ => template
              end)
           "/ajax".

Definition plain_rubric (rubric : string) (system : ModuleSystem) : string :=
  "<rubric>" +:+ rubric +:+ "</rubric>".

Definition text_of (x : xml) : string :=
  match x with Element _ t _ => t end.

Definition score_progress (self : SelfAssessmentModule) : Z * Z :=
  (default 0 (latest_score self), _max_score self).

Definition score_status (p : Z * Z) : string :=
  if bool_decide (p.1 = 0) then "none"
  else if bool_decide (p.1 < p.2) then "in_progress" else "done".

(** A fresh instance with two attempts allowed and a maximum score of 3,
    and the instances met along one cycle from it. *)
Definition fresh : SelfAssessmentModule :=
  mkModule INITIAL [] 0 2 3 "prompt" "rubric" "Any hint?" "Saved.".

Definition assessing : SelfAssessmentModule :=
  mkModule ASSESSING [mkAttempt "foo" None None] 0 2 3
           "prompt" "rubric" "Any hint?" "Saved.".

Definition post_assessment : SelfAssessmentModule :=
  mkModule POST_ASSESSMENT [mkAttempt "foo" (Some 1) None] 0 2 3
           "prompt" "rubric" "Any hint?" "Saved.".

Definition finished : SelfAssessmentModule :=
  mkModule DONE [mkAttempt "foo" (Some 1) (Some "try again")] 0 2 3
           "prompt" "rubric" "Any hint?" "Saved.".

(** An instance at the attempt limit, one beyond it, and one whose persisted
    state is none of the four. *)
Definition at_limit : SelfAssessmentModule :=
  mkModule INITIAL [mkAttempt "foo" (Some 3) None] 2 2 3
           "prompt" "rubric" "Any hint?" "Saved.".

Definition over_limit : SelfAssessmentModule :=
  mkModule ASSESSING [mkAttempt "foo" None None] 3 2 3
           "prompt" "rubric" "Any hint?" "Saved.".

Definition corrupted : SelfAssessmentModule :=
  mkModule (Illegal "grading") [mkAttempt "foo" None None] 0 2 3
           "prompt" "rubric" "Any hint?" "Saved.".

(** Definition files: a well-formed one, one without [hintprompt], one with
    [submitmessage] twice. *)
Definition well_formed : xml :=
  Element "selfassessment" ""
    [Element "hintprompt" "What hint would you give?" [];
     Element "submitmessage" "Save successful." []].

Definition no_hintprompt : xml :=
  Element "selfassessment" "" [Element "submitmessage" "Save successful." []].

Definition two_submitmessages : xml :=
  Element "selfassessment" ""
    [Element "submitmessage" "first" [];
     Element "hintprompt" "What hint would you give?" [];
     Element "submitmessage" "second" []].

(** A reading of the flat elements [<tag>body</tag>] whose body holds no
    markup, for [etree.fromstring]. *)
Fixpoint split_at (c : ascii) (s : string) : option (string * string) :=
  match s with
  | EmptyString => None
  | String x s' =>
      if bool_decide (x = c) then Some (EmptyString, s')
      else match split_at c s' with
           | Some (before, after) => Some (String x before, after)
           | None => None
           end
  end.

Definition flat_fromstring (s : string) : option xml :=
  match s with
  | String "<" s1 =>
      match split_at ">" s1 with
      | Some (t, s2) =>
          match split_at "<" s2 with
          | Some (body, s3) =>
              if bool_decide (s3 = "/" +:+ t +:+ ">")
              then Some (Element t body []) else None
          | None => None
          end
      | None => None
      end
  | _ => None
  end.

(** An instance before [setup_response], and the definition of the module as
    the loader returns it. *)
Definition unconfigured : Unconfigured :=
  mkUnconfigured INITIAL [] 0 2 3
    (Element "prompt" "Why?" []) (Element "rubric" "Because." []).

Definition loaded_definition : gmap string string :=
  {[ "submitmessage" := "Save successful.";
     "hintprompt" := "What hint would you give?" ]}.

(** An instance back in [INITIAL] after one finished cycle. *)
Definition retrying : SelfAssessmentModule :=
  mkModule INITIAL [mkAttempt "foo" (Some 3) None] 1 2 3
           "prompt" "rubric" "Any hint?" "Saved.".

(** ** The methods of the module and of its descriptor *)

Section SelfAssessment.

(** Collaborators outside the module: Python's built-in [int] on a string
    ([None] for the strings on which it raises [ValueError]), the rubric
    renderer [CombinedOpenEndedRubric.render_rubric], [stringify_children],
    and the progress tracker ([get_progress] of the base class with
    [Progress.to_js_status_str]). *)
Context {Progress : Type} `{!EqDecision Progress}.
Variable int : string -> option Z.
Variable render_rubric : string -> ModuleSystem -> string.
Variable stringify_children : xml -> string.
Variable get_progress : SelfAssessmentModule -> Progress.
Variable to_js_status_str : Progress -> string.

(** [get_rubric_html]: the rubric view for the current state. *)
Definition get_rubric_html (system : ModuleSystem) : M string :=
  self ← read;
  if bool_decide (state self = INITIAL) then mret ""
  else
    let rubric_html := render_rubric (rubric self) system in
    let context : dict :=
      {[ "rubric" := VStr rubric_html; "max_score" := VInt (_max_score self) ]} in
    context ←
      (if bool_decide (state self = ASSESSING)
       then mret (<["read_only" := VBool false]> context)
       else if bool_decide (state self ∈ [POST_ASSESSMENT; DONE])
       then mret (<["read_only" := VBool true]> context)
       else raise (ValueError ("Illegal state '" +:+ repr (state self) +:+ "'")));
    mret (render_template system "self_assessment_rubric.html" context).

(** [get_hint_html]: the hint view for the current state. *)
Definition get_hint_html (system : ModuleSystem) : M string :=
  self ← read;
  if bool_decide (state self ∈ [INITIAL; ASSESSING]) then mret ""
  else
    let hint :=
      if bool_decide (state self = DONE)
      then match latest_post_assessment system self with
           | Some latest => latest
           | None => ""
           end
      else "" in
    let context : dict :=
      {[ "hint_prompt" := VStr (hint_prompt self); "hint" := VStr hint ]} in
    context ←
      (if bool_decide (state self = POST_ASSESSMENT)
       then mret (<["read_only" := VBool false]> context)
       else if bool_decide (state self = DONE)
       then mret (<["read_only" := VBool true]> context)
       else raise (ValueError ("Illegal state '" +:+ repr (state self) +:+ "'")));
    mret (render_template system "self_assessment_hint.html" context).

(** [get_message_html]: the confirmation message, shown once [DONE]. *)
Definition get_message_html (self : SelfAssessmentModule) : string :=
  if bool_decide (state self ≠ DONE) then ""
  else "<div class=" +:+ dquote +:+ "save_message" +:+ dquote +:+ ">"
       +:+ submit_message self +:+ "</div>".

Definition too_many_attempts : dict :=
  {[ "success" := VBool false; "error" := VStr "Too many attempts." ]}.

(** [save_answer]: after the answer is submitted, show the rubric. *)
Definition save_answer (get : payload) (system : ModuleSystem) : M dict :=
  self ← read;
  if bool_decide (attempts self > max_attempts self) then mret too_many_attempts
  else if bool_decide (state self ≠ INITIAL) then out_of_sync_error get
  else
    student_answer ← lift (getitem get "student_answer");
    new_history_entry student_answer;;
    change_state ASSESSING;;
    rubric_html ← get_rubric_html system;
    mret ({[ "success" := VBool true; "rubric_html" := VStr rubric_html ]} : dict).

Definition non_integer_score : dict :=
  {[ "success" := VBool false; "error" := VStr "Non-integer score value" ]}.

(** The part of [save_assessment] that follows the [try] block. *)
Definition save_assessment_score (z : Z) (system : ModuleSystem) : M dict :=
  record_latest_score z;;
  let d : dict := {[ "success" := VBool true ]} in
  self ← read;
  d ← (if bool_decide (z = max_score self) then
         change_state DONE;;
         self ← read;
         let d := <["message_html" := VStr (get_message_html self)]> d in
         mret (<["allow_reset" := VBool (_allow_reset self)]> d)
       else
         change_state POST_ASSESSMENT;;
         hint_html ← get_hint_html system;
         mret (<["hint_html" := VStr hint_html]> d));
  self ← read;
  mret (<["state" := VState (state self)]> d).

(** [save_assessment]: record the self-assigned score; a score equal to the
    maximum ends the cycle, any other asks for a hint. *)
Definition save_assessment (get : payload) (system : ModuleSystem) : M dict :=
  self ← read;
  if bool_decide (state self ≠ ASSESSING) then out_of_sync_error get
  else
    assessment ← lift (getitem get "assessment");
    match int assessment with
    | None => mret non_integer_score
    | Some z => save_assessment_score z system
    end.

(** [save_hint]: record the hint and end the cycle. *)
Definition save_hint (get : payload) (system : ModuleSystem) : M dict :=
  self ← read;
  if bool_decide (state self ≠ POST_ASSESSMENT) then out_of_sync_error get
  else
    hint ← lift (getitem get "hint");
    record_latest_post_assessment hint;;
    change_state DONE;;
    self ← read;
    mret ({[ "success" := VBool true;
             "message_html" := VStr (get_message_html self);
             "allow_reset" := VBool (_allow_reset self) ]} : dict).

(** What [handle_ajax] hands back: the bare string of an unknown action, or
    the dictionary it serialises with [json.dumps]. *)
Inductive response : Type :=
| Text (s : string)
| Json (d : gmap string value).

Definition handlers : gmap string (payload -> ModuleSystem -> M dict) :=
  {[ "save_answer" := save_answer;
     "save_assessment" := save_assessment;
     "save_post_assessment" := save_hint ]}.

(** [self.get_progress()], read off the instance as it stands. *)
Definition progress : M Progress :=
  self ← read; mret (get_progress self).

(** [handle_ajax]: route an action to its handler and add the progress
    fields to the handler's dictionary. *)
Definition handle_ajax (dispatch : string) (get : payload)
    (system : ModuleSystem) : M response :=
  match handlers !! dispatch with
  | None => mret (Text "Error")
  | Some handler =>
      before ← progress;
      d ← handler get system;
      after ← progress;
      mret (Json (update d
        {[ "progress_changed" := VBool (bool_decide (after ≠ before));
           "progress_status" := VStr (to_js_status_str after) ]}))
  end.

(** [definition_from_xml]: pull [submitmessage] and [hintprompt] out of the
    definition, each required exactly once. *)
Definition definition_from_xml (xml_object : xml) (system : ModuleSystem)
  : outcome (gmap string string) :=
  check_expected_children ["submitmessage"; "hintprompt"] xml_object;;
  let parse k :=
    child ← first_item (xpath k xml_object); mret (stringify_children child) in
  submitmessage ← parse "submitmessage";
  hintprompt ← parse "hintprompt";
  mret ({[ "submitmessage" := submitmessage; "hintprompt" := hintprompt ]}
        : gmap string string).


(** The action names [handle_ajax] knows. *)
Definition known_actions : list string :=
  ["save_answer"; "save_assessment"; "save_post_assessment"].

(** The two fields [handle_ajax] adds to a handler's dictionary. *)
Definition progress_fields (before after : Progress) : dict :=
  {[ "progress_changed" := VBool (bool_decide (after ≠ before));
     "progress_status" := VStr (to_js_status_str after) ]}.

(** [get_html]: the context of the problem page, rendered. *)
Definition get_html (system : ModuleSystem) : M string :=
  self ← read;
  let previous_answer :=
    if bool_decide (state self ≠ INITIAL)
    then match latest_answer self with
         | Some latest => latest
         | None => ""
         end
    else "" in
  initial_rubric ← get_rubric_html system;
  initial_hint ← get_hint_html system;
  let context : dict :=
    {[ "prompt" := VStr (prompt self);
       "previous_answer" := VStr previous_answer;
       "ajax_url" := VStr (ajax_url system);
       "initial_rubric" := VStr initial_rubric;
       "initial_hint" := VStr initial_hint;
       "initial_message" := VStr (get_message_html self);
       "state" := VState (state self);
       "allow_reset" := VBool (_allow_reset self);
       "child_type" := VStr "selfassessment" ]} in
  mret (render_template system "self_assessment_prompt.html" context).

(** [setup_response]: take the two texts from the definition and turn the
    prompt and rubric elements into text.  [location] and [descriptor] are
    not used by the method and are left out; an instance that failed to set
    up is not kept. *)
Definition setup_response (system : ModuleSystem)
    (definition : gmap string string) (self : Unconfigured)
  : outcome SelfAssessmentModule :=
  submit_message ← getitem definition "submitmessage";
  hint_prompt ← getitem definition "hintprompt";
  mret (mkModule (u_state self) (u_history self) (u_attempts self)
          (u_max_attempts self) (u_max_score self)
          (stringify_children (u_prompt self))
          (stringify_children (u_rubric self))
          hint_prompt submit_message).

(** [etree.fromstring], [None] where it raises its syntax error. *)
Variable fromstring : string -> option xml.

(** The loop of [definition_to_xml] over the two tags, with [add_child] as
    its body. *)
Fixpoint add_children (definition : gmap string string) (tags : list string)
    (elt : xml) : built xml :=
  match tags with
  | [] => Built elt
  | k :: rest =>
      match definition !! k with
      | None => MissingKey k
      | Some body =>
          match fromstring (child_str k body) with
          | None => XMLSyntaxError (child_str k body)
          | Some child_node =>
              add_children definition rest (append_child elt child_node)
          end
      end
  end.

(** [definition_to_xml]: an element representing the definition;
    [resource_fs] is not used by the method and is left out. *)
Definition definition_to_xml (definition : gmap string string) : built xml :=
  add_children definition ["submitmessage"; "hintprompt"]
    (Element "selfassessment" "" []).

(** One accepted action, as a step from the instance before the call to the
    instance after it. *)
Inductive transition (self self' : SelfAssessmentModule) : Prop :=
| answer_submitted (a : string) :
    attempts self <= max_attempts self ->
    state self = INITIAL ->
    self' = set_state ASSESSING
              (set_history (history self ++ [mkAttempt a None None]) self) ->
    transition self self'
| score_submitted (z : Z) :
    state self = ASSESSING ->
    self' = set_state (if bool_decide (z = _max_score self)
                       then DONE else POST_ASSESSMENT)
              (set_history (scored z (history self)) self) ->
    transition self self'
| hint_submitted (t : string) :
    state self = POST_ASSESSMENT ->
    self' = set_state DONE (set_history (hinted t (history self)) self) ->
    transition self self'.

(** A result envelope that reports a failure: [success] is false and an
    [error] text is present. *)
Definition error_envelope (d : dict) : Prop :=
  d !! "success" = Some (VBool false) /\ exists msg, d !! "error" = Some (VStr msg).

(** Misuse of the workflow by a dispatched action: [save_answer] beyond the
    attempt limit or out of state, [save_assessment] out of state or with a
    score text that is no integer, [save_hint] out of state. *)
Definition misuse (dispatch : string) (get : payload)
    (self : SelfAssessmentModule) : Prop :=
  (dispatch = "save_answer"
     /\ (attempts self > max_attempts self \/ state self <> INITIAL))
  \/ (dispatch = "save_assessment"
     /\ (state self <> ASSESSING
         \/ exists a, get !! "assessment" = Some a /\ int a = None))
  \/ (dispatch = "save_post_assessment" /\ state self <> POST_ASSESSMENT).

(** What each handler can do: return a dictionary or raise [KeyError]. *)
Definition returns_or_key_error {A : Type}
    (r : outcome A * SelfAssessmentModule) : Prop :=
  (exists a self', r = (Return a, self'))
  \/ (exists k self', r = (Raise (KeyError k), self')).

(** A call that did not go through: it raised [KeyError], or it returned an
    error envelope. *)
Definition failure (o : outcome dict) : Prop :=
  (exists k, o = Raise (KeyError k))
  \/ (exists d, o = Return d /\ error_envelope d).

(** An envelope that reports success and carries no [error]. *)
Definition success_envelope (d : dict) : Prop :=
  d !! "success" = Some (VBool true) /\ d !! "error" = None.

(** ** Properties *)

(** Unfolds a method down to the monad's plumbing. *)
Ltac run :=
  unfold save_answer, save_assessment, save_assessment_score, save_hint,
    handle_ajax, progress, get_rubric_html, get_hint_html, out_of_sync_error,
    new_history_entry, record_latest_score, record_latest_post_assessment,
    change_state, read, write, raise, lift, getitem;
  unfold mbind, mret, M_bind, M_ret; simpl.

Lemma alter_latest_snoc (f : AttemptRecord -> AttemptRecord)
    (h : list AttemptRecord) (r : AttemptRecord) :
  alter f (latest_index (h ++ [r])) (h ++ [r]) = h ++ [f r].
Proof.
  unfold latest_index. rewrite length_app, Nat.add_1_r. simpl.
  induction h as [|x h IH]; simpl; [reflexivity|].
  f_equal. exact IH.
Qed.

Lemma alter_latest_length (f : AttemptRecord -> AttemptRecord)
    (h : list AttemptRecord) :
  length (alter f (latest_index h) h) = length h.
Proof. apply length_alter. Qed.

(** [save_answer] beyond the attempt limit. *)
Lemma save_answer_over_limit get system self :
  attempts self > max_attempts self ->
  save_answer get system self = (Return too_many_attempts, self).
Proof. intros H. run. rewrite bool_decide_eq_true_2 by exact H. reflexivity. Qed.

(** [save_answer] within the limit and out of state. *)
Lemma save_answer_out_of_sync get system self :
  attempts self <= max_attempts self -> state self <> INITIAL ->
  save_answer get system self = out_of_sync_error get self.
Proof.
  intros Ha Hs. run.
  rewrite bool_decide_eq_false_2 by lia.
  rewrite bool_decide_eq_true_2 by exact Hs. reflexivity.
Qed.

(** [save_answer] within the limit and in state. *)
Lemma save_answer_accepts get system self a :
  attempts self <= max_attempts self -> state self = INITIAL ->
  get !! "student_answer" = Some a ->
  save_answer get system self =
    (Return ({[ "success" := VBool true;
                "rubric_html" := VStr
                  (render_template system "self_assessment_rubric.html"
                     (<["read_only" := VBool false]>
                        ({[ "rubric" := VStr (render_rubric (rubric self) system);
                            "max_score" := VInt (_max_score self) ]} : dict))) ]} : dict),
     set_state ASSESSING
       (set_history (history self ++ [mkAttempt a None None]) self)).
Proof.
  intros Ha Hs Hg. run.
  rewrite bool_decide_eq_false_2 by lia.
  rewrite bool_decide_eq_false_2 by (intros H; apply H; exact Hs).
  rewrite Hg. reflexivity.
Qed.

Lemma save_answer_missing_key get system self :
  attempts self <= max_attempts self -> state self = INITIAL ->
  get !! "student_answer" = None ->
  save_answer get system self = (Raise (KeyError "student_answer"), self).
Proof.
  intros Ha Hs Hg. run.
  rewrite bool_decide_eq_false_2 by lia.
  rewrite bool_decide_eq_false_2 by (intros H; apply H; exact Hs).
  rewrite Hg. reflexivity.
Qed.

Lemma save_assessment_out_of_sync get system self :
  state self <> ASSESSING ->
  save_assessment get system self = out_of_sync_error get self.
Proof. intros Hs. run. rewrite bool_decide_eq_true_2 by exact Hs. reflexivity. Qed.

Lemma save_hint_out_of_sync get system self :
  state self <> POST_ASSESSMENT ->
  save_hint get system self = out_of_sync_error get self.
Proof. intros Hs. run. rewrite bool_decide_eq_true_2 by exact Hs. reflexivity. Qed.

Lemma out_of_sync_error_fails get self :
  exists d, out_of_sync_error get self = (Return d, self)
    /\ d !! "success" = Some (VBool false)
    /\ d !! "error" = Some (VStr "out-of-sync").
Proof. eexists. split; [reflexivity|]. split; reflexivity. Qed.

Lemma save_assessment_missing_key get system self :
  state self = ASSESSING -> get !! "assessment" = None ->
  save_assessment get system self = (Raise (KeyError "assessment"), self).
Proof.
  intros Hs Hg. run.
  rewrite bool_decide_eq_false_2 by (intros H; apply H; exact Hs).
  rewrite Hg. reflexivity.
Qed.

Lemma save_assessment_non_integer get system self a :
  state self = ASSESSING -> get !! "assessment" = Some a -> int a = None ->
  save_assessment get system self = (Return non_integer_score, self).
Proof.
  intros Hs Hg Hi. run.
  rewrite bool_decide_eq_false_2 by (intros H; apply H; exact Hs).
  rewrite Hg, Hi. reflexivity.
Qed.

Lemma save_assessment_max get system self a z :
  state self = ASSESSING -> get !! "assessment" = Some a -> int a = Some z ->
  z = max_score self ->
  exists d,
    save_assessment get system self =
      (Return d, set_state DONE (set_history (scored z (history self)) self))
    /\ d !! "success" = Some (VBool true)
    /\ d !! "state" = Some (VState DONE)
    /\ d !! "error" = None.
Proof.
  intros Hs Hg Hi Hz. run.
  rewrite bool_decide_eq_false_2 by (intros H; apply H; exact Hs).
  rewrite Hg, Hi. unfold max_score. simpl.
  rewrite bool_decide_eq_true_2 by exact Hz.
  eexists. split; [reflexivity|]. repeat split; by simplify_map_eq.
Qed.

Lemma save_assessment_other get system self a z :
  state self = ASSESSING -> get !! "assessment" = Some a -> int a = Some z ->
  z <> max_score self ->
  exists d,
    save_assessment get system self =
      (Return d,
       set_state POST_ASSESSMENT (set_history (scored z (history self)) self))
    /\ d !! "success" = Some (VBool true)
    /\ d !! "state" = Some (VState POST_ASSESSMENT)
    /\ d !! "error" = None.
Proof.
  intros Hs Hg Hi Hz. run.
  rewrite bool_decide_eq_false_2 by (intros H; apply H; exact Hs).
  rewrite Hg, Hi. unfold max_score. simpl.
  rewrite bool_decide_eq_false_2 by exact Hz.
  eexists. split; [reflexivity|]. repeat split; by simplify_map_eq.
Qed.

Lemma save_hint_missing_key get system self :
  state self = POST_ASSESSMENT -> get !! "hint" = None ->
  save_hint get system self = (Raise (KeyError "hint"), self).
Proof.
  intros Hs Hg. run.
  rewrite bool_decide_eq_false_2 by (intros H; apply H; exact Hs).
  rewrite Hg. reflexivity.
Qed.

Lemma save_hint_accepts get system self t :
  state self = POST_ASSESSMENT -> get !! "hint" = Some t ->
  exists d,
    save_hint get system self =
      (Return d, set_state DONE (set_history (hinted t (history self)) self))
    /\ d !! "success" = Some (VBool true)
    /\ d !! "error" = None.
Proof.
  intros Hs Hg. run.
  rewrite bool_decide_eq_false_2 by (intros H; apply H; exact Hs).
  rewrite Hg.
  eexists. split; [reflexivity|]. split; by simplify_map_eq.
Qed.

Lemma scored_snoc z h r :
  scored z (h ++ [r]) = h ++ [mkAttempt (answer r) (Some z) (hint r)].
Proof. apply alter_latest_snoc. Qed.

Lemma hinted_snoc t h r :
  hinted t (h ++ [r]) = h ++ [mkAttempt (answer r) (score r) (Some t)].
Proof. apply alter_latest_snoc. Qed.

(** The views of the four defined states. *)
Lemma get_rubric_html_defined system self :
  state self ∈ defined_states ->
  exists html, get_rubric_html system self = (Return html, self).
Proof.
  unfold defined_states. intros Hs. run.
  repeat (apply elem_of_cons in Hs as [Hs|Hs]); [..|by apply elem_of_nil in Hs];
    rewrite Hs; eexists; reflexivity.
Qed.

Lemma get_hint_html_defined system self :
  state self ∈ defined_states ->
  exists html, get_hint_html system self = (Return html, self).
Proof.
  unfold defined_states. intros Hs. run.
  repeat (apply elem_of_cons in Hs as [Hs|Hs]); [..|by apply elem_of_nil in Hs];
    rewrite Hs; eexists; reflexivity.
Qed.

Lemma not_defined_inv (s : WorkflowState) :
  s ∉ defined_states ->
  s <> INITIAL /\ s <> ASSESSING /\ s <> POST_ASSESSMENT /\ s <> DONE.
Proof.
  unfold defined_states. intros H.
  repeat split; intros ->; apply H; set_solver.
Qed.

(** The views of any other state. *)
Lemma get_rubric_html_illegal system self :
  state self ∉ defined_states ->
  get_rubric_html system self =
    (Raise (ValueError ("Illegal state '" +:+ repr (state self) +:+ "'")), self).
Proof.
  intros (Hi & Ha & Hp & Hd)%not_defined_inv. run.
  rewrite (bool_decide_eq_false_2 _ Hi), (bool_decide_eq_false_2 _ Ha).
  rewrite bool_decide_eq_false_2; [reflexivity|].
  intros Hin. repeat (apply elem_of_cons in Hin as [Hin|Hin]); try done.
  by apply elem_of_nil in Hin.
Qed.

Lemma get_hint_html_illegal system self :
  state self ∉ defined_states ->
  get_hint_html system self =
    (Raise (ValueError ("Illegal state '" +:+ repr (state self) +:+ "'")), self).
Proof.
  intros (Hi & Ha & Hp & Hd)%not_defined_inv. run.
  rewrite bool_decide_eq_false_2.
  - rewrite (bool_decide_eq_false_2 _ Hp), (bool_decide_eq_false_2 _ Hd).
    reflexivity.
  - intros Hin. repeat (apply elem_of_cons in Hin as [Hin|Hin]); try done.
    by apply elem_of_nil in Hin.
Qed.

(** The router. *)
Lemma handlers_unknown (dispatch : string) :
  dispatch ∉ known_actions -> handlers !! dispatch = None.
Proof.
  unfold known_actions, handlers. intros H.
  repeat (rewrite lookup_insert_ne by (intros <-; apply H; set_solver)).
  apply lookup_singleton_ne. intros <-. apply H. set_solver.
Qed.

Lemma handlers_known (dispatch : string) :
  dispatch ∈ known_actions -> is_Some (handlers !! dispatch).
Proof.
  unfold known_actions, handlers. intros H.
  repeat (apply elem_of_cons in H as [->|H]); [..|by apply elem_of_nil in H];
    eexists; reflexivity.
Qed.

Lemma handle_ajax_unknown dispatch get system self :
  dispatch ∉ known_actions ->
  handle_ajax dispatch get system self = (Return (Text "Error"), self).
Proof.
  intros H%handlers_unknown. unfold handle_ajax.
  by rewrite H.
Qed.

Lemma handle_ajax_known dispatch (handler : payload -> ModuleSystem -> M dict)
    get system self :
  handlers !! dispatch = Some handler ->
  handle_ajax dispatch get system self =
    match handler get system self with
    | (Return d, self') =>
        (Return (Json (update d
           (progress_fields (get_progress self) (get_progress self')))), self')
    | (Raise e, self') => (Raise e, self')
    end.
Proof.
  intros H. unfold handle_ajax. rewrite H. run.
  destruct (handler get system self) as [[d|e] self']; reflexivity.
Qed.

Lemma update_progress_fields d before after :
  update d (progress_fields before after) !! "progress_changed"
    = Some (VBool (bool_decide (after ≠ before)))
  /\ update d (progress_fields before after) !! "progress_status"
    = Some (VStr (to_js_status_str after))
  /\ forall k, k <> "progress_changed" -> k <> "progress_status" ->
       update d (progress_fields before after) !! k = d !! k.
Proof.
  unfold update, progress_fields. repeat split.
  - apply lookup_union_Some_l. by simplify_map_eq.
  - apply lookup_union_Some_l. by simplify_map_eq.
  - intros k H1 H2. apply lookup_union_r. by simplify_map_eq.
Qed.

(** The definition loader. *)
Lemma length_one_inv {A : Type} (l : list A) :
  length l = 1%nat -> exists x, l = [x].
Proof. destruct l as [|x [|y l]]; intros H; try discriminate. by exists x. Qed.

Lemma definition_from_xml_loads xml_object system :
  length (xpath "submitmessage" xml_object) = 1%nat ->
  length (xpath "hintprompt" xml_object) = 1%nat ->
  exists sm hp,
    xpath "submitmessage" xml_object = [sm]
    /\ xpath "hintprompt" xml_object = [hp]
    /\ definition_from_xml xml_object system =
         Return {[ "submitmessage" := stringify_children sm;
                   "hintprompt" := stringify_children hp ]}.
Proof.
  intros Hs Hh.
  destruct (length_one_inv _ Hs) as [sm Hsm].
  destruct (length_one_inv _ Hh) as [hp Hhp].
  exists sm, hp. repeat split; [done..|].
  unfold definition_from_xml. simpl.
  rewrite Hsm, Hhp. reflexivity.
Qed.

Lemma definition_from_xml_submitmessage xml_object system :
  length (xpath "submitmessage" xml_object) <> 1%nat ->
  definition_from_xml xml_object system =
    Raise (ValueError (exactly_one_message "submitmessage")).
Proof.
  intros Hs. unfold definition_from_xml. simpl.
  rewrite bool_decide_eq_true_2 by exact Hs. reflexivity.
Qed.

Lemma definition_from_xml_hintprompt xml_object system :
  length (xpath "submitmessage" xml_object) = 1%nat ->
  length (xpath "hintprompt" xml_object) <> 1%nat ->
  definition_from_xml xml_object system =
    Raise (ValueError (exactly_one_message "hintprompt")).
Proof.
  intros Hs Hh. unfold definition_from_xml. simpl.
  rewrite bool_decide_eq_false_2 by (intros H; apply H; exact Hs).
  rewrite bool_decide_eq_true_2 by exact Hh. reflexivity.
Qed.

Lemma out_of_sync_error_envelope get self :
  exists d, out_of_sync_error get self = (Return d, self) /\ error_envelope d.
Proof.
  destruct (out_of_sync_error_fails get self) as (d & Hd & Hs & He).
  exists d. split; [exact Hd|]. split; [exact Hs|]. eauto.
Qed.

Lemma too_many_attempts_envelope : error_envelope too_many_attempts.
Proof. split; [reflexivity|]. eexists. reflexivity. Qed.

Lemma non_integer_score_envelope : error_envelope non_integer_score.
Proof. split; [reflexivity|]. eexists. reflexivity. Qed.

Lemma save_answer_rejects get system self :
  attempts self > max_attempts self \/ state self <> INITIAL ->
  exists d, save_answer get system self = (Return d, self) /\ error_envelope d.
Proof.
  intros H.
  destruct (decide (attempts self > max_attempts self)) as [Ha|Ha].
  - exists too_many_attempts. split; [by apply save_answer_over_limit|].
    apply too_many_attempts_envelope.
  - destruct H as [H|H]; [done|].
    rewrite save_answer_out_of_sync by (done || lia).
    apply out_of_sync_error_envelope.
Qed.

Lemma save_assessment_rejects get system self :
  state self <> ASSESSING
  \/ (exists a, get !! "assessment" = Some a /\ int a = None) ->
  exists d, save_assessment get system self = (Return d, self) /\ error_envelope d.
Proof.
  intros H.
  destruct (decide (state self = ASSESSING)) as [Hs|Hs].
  - destruct H as [H|(a & Hg & Hi)]; [done|].
    exists non_integer_score.
    split; [by eapply save_assessment_non_integer|].
    apply non_integer_score_envelope.
  - rewrite save_assessment_out_of_sync by done.
    apply out_of_sync_error_envelope.
Qed.

Lemma save_hint_rejects get system self :
  state self <> POST_ASSESSMENT ->
  exists d, save_hint get system self = (Return d, self) /\ error_envelope d.
Proof.
  intros H. rewrite save_hint_out_of_sync by done.
  apply out_of_sync_error_envelope.
Qed.

Lemma save_answer_outcome get system self :
  returns_or_key_error (save_answer get system self)
  /\ (is_Some (get !! "student_answer") ->
      exists d self', save_answer get system self = (Return d, self')).
Proof.
  destruct (decide (attempts self > max_attempts self \/ state self <> INITIAL))
    as [H|H].
  - destruct (save_answer_rejects get system self H) as (d & -> & _).
    split; [left|]; eauto.
  - assert (attempts self <= max_attempts self) as Ha by lia.
    assert (state self = INITIAL) as Hs.
    { destruct (decide (state self = INITIAL)); [done|]. exfalso. auto. }
    destruct (get !! "student_answer") as [a|] eqn:Hg.
    + rewrite (save_answer_accepts _ _ _ a) by done. split; [left|]; eauto.
    + rewrite save_answer_missing_key by done.
      split; [right; eauto|]. by intros [? ?].
Qed.

Lemma save_assessment_outcome get system self :
  returns_or_key_error (save_assessment get system self)
  /\ (is_Some (get !! "assessment") ->
      exists d self', save_assessment get system self = (Return d, self')).
Proof.
  destruct (decide (state self = ASSESSING)) as [Hs|Hs].
  - destruct (get !! "assessment") as [a|] eqn:Hg.
    + destruct (int a) as [z|] eqn:Hi.
      * destruct (decide (z = max_score self)) as [Hz|Hz].
        -- destruct (save_assessment_max get system self a z) as (d & -> & _);
             [done..|]. split; [left|]; eauto.
        -- destruct (save_assessment_other get system self a z) as (d & -> & _);
             [done..|]. split; [left|]; eauto.
      * rewrite (save_assessment_non_integer _ _ _ a) by done.
        split; [left|]; eauto.
    + rewrite save_assessment_missing_key by done.
      split; [right; eauto|]. by intros [? ?].
  - destruct (save_assessment_rejects get system self) as (d & -> & _);
      [by left|]. split; [left|]; eauto.
Qed.

Lemma save_hint_outcome get system self :
  returns_or_key_error (save_hint get system self)
  /\ (is_Some (get !! "hint") ->
      exists d self', save_hint get system self = (Return d, self')).
Proof.
  destruct (decide (state self = POST_ASSESSMENT)) as [Hs|Hs].
  - destruct (get !! "hint") as [t|] eqn:Hg.
    + destruct (save_hint_accepts get system self t) as (d & -> & _); [done..|].
      split; [left|]; eauto.
    + rewrite save_hint_missing_key by done.
      split; [right; eauto|]. by intros [? ?].
  - destruct (save_hint_rejects get system self Hs) as (d & -> & _).
    split; [left|]; eauto.
Qed.

Lemma handlers_inv dispatch (handler : payload -> ModuleSystem -> M dict) :
  handlers !! dispatch = Some handler ->
  (dispatch = "save_answer" /\ handler = save_answer)
  \/ (dispatch = "save_assessment" /\ handler = save_assessment)
  \/ (dispatch = "save_post_assessment" /\ handler = save_hint).
Proof.
  unfold handlers. intros H.
  destruct (decide (dispatch = "save_answer")) as [->|H1].
  { rewrite lookup_insert_eq in H. left. split; congruence. }
  rewrite lookup_insert_ne in H by done.
  destruct (decide (dispatch = "save_assessment")) as [->|H2].
  { rewrite lookup_insert_eq in H. right; left. split; congruence. }
  rewrite lookup_insert_ne in H by done.
  destruct (decide (dispatch = "save_post_assessment")) as [->|H3].
  { rewrite lookup_singleton_eq in H. right; right. split; congruence. }
  rewrite lookup_singleton_ne in H by done. discriminate.
Qed.

Lemma handler_outcome dispatch (handler : payload -> ModuleSystem -> M dict)
    get system self :
  handlers !! dispatch = Some handler ->
  returns_or_key_error (handler get system self).
Proof.
  intros [(_ & ->)|[(_ & ->)|(_ & ->)]]%handlers_inv.
  - apply save_answer_outcome.
  - apply save_assessment_outcome.
  - apply save_hint_outcome.
Qed.

Lemma handle_ajax_outcome dispatch get system self :
  returns_or_key_error (handle_ajax dispatch get system self).
Proof.
  destruct (handlers !! dispatch) as [handler|] eqn:Hh.
  - rewrite (handle_ajax_known _ handler) by done.
    destruct (handler_outcome _ _ get system self Hh)
      as [(d & self' & ->)|(k & self' & ->)]; [left|right]; eauto.
  - unfold handle_ajax. rewrite Hh. left. eauto.
Qed.

(** ** The claims of the specification *)

(** C1. An action invoked while the workflow is not in the state the action
    requires ([INITIAL] for [save_answer], [ASSESSING] for [save_assessment],
    [POST_ASSESSMENT] for [save_hint]) returns a result with [success] false
    and hands back the instance as it was: neither the state nor the history
    changes.  In particular [save_hint] in [DONE] is the out-of-sync
    rejection and records nothing a second time. *)
Theorem out_of_state_rejected get system self :
  (state self <> INITIAL ->
     exists d, save_answer get system self = (Return d, self)
       /\ d !! "success" = Some (VBool false))
  /\ (state self <> ASSESSING ->
     exists d, save_assessment get system self = (Return d, self)
       /\ d !! "success" = Some (VBool false))
  /\ (state self <> POST_ASSESSMENT ->
     exists d, save_hint get system self = (Return d, self)
       /\ d !! "success" = Some (VBool false))
  /\ (state self = DONE ->
     save_hint get system self = out_of_sync_error get self
     /\ exists d, save_hint get system self = (Return d, self)
          /\ d !! "success" = Some (VBool false)).
Proof.
  repeat split.
  - intros Hs. destruct (save_answer_rejects get system self) as (d & Hd & He & _);
      [by right|]. eauto.
  - intros Hs. destruct (save_assessment_rejects get system self) as (d & Hd & He & _);
      [by left|]. eauto.
  - intros Hs. destruct (save_hint_rejects get system self Hs) as (d & Hd & He & _).
    eauto.
  - apply save_hint_out_of_sync. congruence.
  - destruct (save_hint_rejects get system self) as (d & Hd & He & _);
      [congruence|]. eauto.
Qed.

(** C2. In state [ASSESSING], [save_assessment] with an ['assessment'] text
    that [int] reads as the maximum score moves the state to [DONE]; with any
    other integer it moves the state to [POST_ASSESSMENT]; in both cases the
    score is set on the latest record of the history and the other records
    stay as they were.  With a text that is no integer it returns the
    validation failure ([success] false with the error text) and leaves the
    instance unchanged. *)
Theorem save_assessment_transitions get system self a :
  state self = ASSESSING ->
  get !! "assessment" = Some a ->
  (forall z, int a = Some z -> z = max_score self ->
     exists d self', save_assessment get system self = (Return d, self')
       /\ d !! "success" = Some (VBool true)
       /\ state self' = DONE
       /\ history self' = scored z (history self))
  /\ (forall z, int a = Some z -> z <> max_score self ->
     exists d self', save_assessment get system self = (Return d, self')
       /\ d !! "success" = Some (VBool true)
       /\ state self' = POST_ASSESSMENT
       /\ history self' = scored z (history self))
  /\ (int a = None ->
     exists d, save_assessment get system self = (Return d, self)
       /\ d !! "success" = Some (VBool false)
       /\ d !! "error" = Some (VStr "Non-integer score value"))
  /\ (forall z h r, history self = h ++ [r] ->
     scored z (history self) = h ++ [mkAttempt (answer r) (Some z) (hint r)]).
Proof.
  intros Hs Hg. repeat split.
  - intros z Hi Hz.
    destruct (save_assessment_max get system self a z) as (d & Hd & Hok & _);
      [done..|].
    exists d. eexists. split; [exact Hd|]. repeat split. exact Hok.
  - intros z Hi Hz.
    destruct (save_assessment_other get system self a z) as (d & Hd & Hok & _);
      [done..|].
    exists d. eexists. split; [exact Hd|]. repeat split. exact Hok.
  - intros Hi. exists non_integer_score.
    split; [by eapply save_assessment_non_integer|]. split; reflexivity.
  - intros z h r ->. apply scored_snoc.
Qed.

(** C3. The attempt guard of [save_answer] is a strict comparison: with
    [attempts] equal to [max_attempts] the submission passes the guard (it is
    accepted in state [INITIAL], and whatever it returns is not the attempt
    error), and with [attempts] greater than [max_attempts] it is blocked
    with the error ['Too many attempts.']. *)
Theorem attempt_guard_is_strict get system self :
  (attempts self = max_attempts self ->
     (forall a, state self = INITIAL -> get !! "student_answer" = Some a ->
        exists d self', save_answer get system self = (Return d, self')
          /\ d !! "success" = Some (VBool true)
          /\ state self' = ASSESSING)
     /\ (forall d self', save_answer get system self = (Return d, self') ->
        d !! "error" <> Some (VStr "Too many attempts.")))
  /\ (attempts self > max_attempts self ->
     exists d, save_answer get system self = (Return d, self)
       /\ d !! "success" = Some (VBool false)
       /\ d !! "error" = Some (VStr "Too many attempts.")).
Proof.
  split.
  - intros Heq. split.
    + intros a Hs Hg. rewrite (save_answer_accepts _ _ _ a) by (done || lia).
      do 2 eexists. split; [reflexivity|]. split; by simplify_map_eq.
    + intros d self'.
      destruct (decide (state self = INITIAL)) as [Hs|Hs].
      * destruct (get !! "student_answer") as [a|] eqn:Hg.
        -- rewrite (save_answer_accepts _ _ _ a) by (done || lia).
           intros [= <- _]. by simplify_map_eq.
        -- rewrite save_answer_missing_key by (done || lia). discriminate.
      * rewrite save_answer_out_of_sync by (done || lia).
        intros [= <- _]. by simplify_map_eq.
  - intros Hgt. exists too_many_attempts.
    split; [by apply save_answer_over_limit|]. split; reflexivity.
Qed.

(** C4. In state [INITIAL] with [attempts <= max_attempts], [save_answer]
    with a payload holding ['student_answer'] returns [success] true, moves
    the state to [ASSESSING] and appends exactly one record, with the given
    answer and neither score nor hint, after the existing records, which stay
    as they were. *)
Theorem save_answer_appends get system self a :
  attempts self <= max_attempts self ->
  state self = INITIAL ->
  get !! "student_answer" = Some a ->
  exists d self',
    save_answer get system self = (Return d, self')
    /\ d !! "success" = Some (VBool true)
    /\ state self' = ASSESSING
    /\ history self' = history self ++ [mkAttempt a None None].
Proof.
  intros Ha Hs Hg. rewrite (save_answer_accepts _ _ _ a) by done.
  do 2 eexists. split; [reflexivity|]. split; [by simplify_map_eq|].
  split; reflexivity.
Qed.

(** C5. In state [POST_ASSESSMENT], [save_hint] with a payload holding
    ['hint'] returns [success] true, moves the state to [DONE] and sets the
    hint of the most recent record to the given text. *)
Theorem save_hint_finishes get system self t :
  state self = POST_ASSESSMENT ->
  get !! "hint" = Some t ->
  exists d self',
    save_hint get system self = (Return d, self')
    /\ d !! "success" = Some (VBool true)
    /\ state self' = DONE
    /\ history self' = hinted t (history self)
    /\ (forall h r, history self = h ++ [r] ->
        history self' = h ++ [mkAttempt (answer r) (score r) (Some t)]).
Proof.
  intros Hs Hg.
  destruct (save_hint_accepts get system self t) as (d & Hd & Hok & _); [done..|].
  exists d. eexists. split; [exact Hd|]. repeat split; [exact Hok|].
  intros h r Hh. simpl. rewrite Hh. apply hinted_snoc.
Qed.

(** C6. For an action name that is none of [save_answer], [save_assessment],
    [save_post_assessment], [handle_ajax] hands back the bare rejection and
    the instance untouched.  For a known name it runs the handler registered
    under it, and whatever dictionary the handler returns (success,
    validation failure or out-of-sync alike) comes back with
    [progress_changed], the comparison of the progress read before and after
    the handler, and [progress_status], the status text of the progress read
    after it, every other field kept; a payload holding the keys the
    handlers read always gets such an envelope. *)
Theorem handle_ajax_envelope dispatch get system self :
  (dispatch ∉ known_actions ->
     handle_ajax dispatch get system self = (Return (Text "Error"), self))
  /\ (dispatch ∈ known_actions ->
     exists handler, handlers !! dispatch = Some handler
       /\ forall d self', handler get system self = (Return d, self') ->
            exists env,
              handle_ajax dispatch get system self = (Return (Json env), self')
              /\ env !! "progress_changed"
                 = Some (VBool (bool_decide (get_progress self' ≠ get_progress self)))
              /\ env !! "progress_status"
                 = Some (VStr (to_js_status_str (get_progress self')))
              /\ forall k, k <> "progress_changed" -> k <> "progress_status" ->
                   env !! k = d !! k)
  /\ (dispatch ∈ known_actions ->
     is_Some (get !! "student_answer") -> is_Some (get !! "assessment") ->
     is_Some (get !! "hint") ->
     exists env self',
       handle_ajax dispatch get system self = (Return (Json env), self')
       /\ env !! "progress_changed"
          = Some (VBool (bool_decide (get_progress self' ≠ get_progress self)))
       /\ env !! "progress_status"
          = Some (VStr (to_js_status_str (get_progress self')))).
Proof.
  split; [apply handle_ajax_unknown|]. split.
  - intros [handler Hh]%handlers_known. exists handler. split; [exact Hh|].
    intros d self' Hd. rewrite (handle_ajax_known _ handler) by done. rewrite Hd.
    eexists. split; [reflexivity|]. apply update_progress_fields.
  - intros [handler Hh]%handlers_known Hanswer Hassessment Hhint.
    assert (exists d self', handler get system self = (Return d, self'))
      as (d & self' & Hd).
    { destruct (handlers_inv _ _ Hh) as [(_ & ->)|[(_ & ->)|(_ & ->)]].
      - by apply save_answer_outcome.
      - by apply save_assessment_outcome.
      - by apply save_hint_outcome. }
    rewrite (handle_ajax_known _ handler) by done. rewrite Hd.
    do 2 eexists. split; [reflexivity|].
    destruct (update_progress_fields d (get_progress self) (get_progress self'))
      as (H1 & H2 & _). by split.
Qed.

(** C7, amended. A dispatched action that misuses the workflow in one of the
    ways the handlers check for (wrong state, attempt limit exceeded, a score
    text that is no integer) returns a result envelope with [success] false
    and an [error] text, raises nothing and leaves the instance as it was.  A
    payload without the key the handler reads is not among them: once the
    state and attempt checks have passed, the handler raises [KeyError]. *)
Theorem misuse_returns_error_envelope dispatch get system self :
  (misuse dispatch get self ->
     exists env,
       handle_ajax dispatch get system self = (Return (Json env), self)
       /\ error_envelope env)
  /\ (attempts self <= max_attempts self -> state self = INITIAL ->
      get !! "student_answer" = None ->
      handle_ajax "save_answer" get system self
        = (Raise (KeyError "student_answer"), self))
  /\ (state self = ASSESSING -> get !! "assessment" = None ->
      handle_ajax "save_assessment" get system self
        = (Raise (KeyError "assessment"), self))
  /\ (state self = POST_ASSESSMENT -> get !! "hint" = None ->
      handle_ajax "save_post_assessment" get system self
        = (Raise (KeyError "hint"), self)).
Proof.
  split.
  - intros Hm.
    assert (exists handler d, handlers !! dispatch = Some handler
              /\ handler get system self = (Return d, self)
              /\ error_envelope d) as (handler & d & Hh & Hd & Hs & msg & He).
    { destruct Hm as [(-> & H)|[(-> & H)|(-> & H)]].
      - destruct (save_answer_rejects get system self H) as (d & Hd & He).
        by exists save_answer, d.
      - destruct (save_assessment_rejects get system self H) as (d & Hd & He).
        by exists save_assessment, d.
      - destruct (save_hint_rejects get system self H) as (d & Hd & He).
        by exists save_hint, d. }
    rewrite (handle_ajax_known _ handler) by done. rewrite Hd.
    eexists. split; [reflexivity|].
    destruct (update_progress_fields d (get_progress self) (get_progress self))
      as (_ & _ & Hk).
    split; [|exists msg]; rewrite Hk; done.
  - repeat split.
    + intros Ha Hs Hg. rewrite (handle_ajax_known _ save_answer) by done.
      by rewrite save_answer_missing_key.
    + intros Hs Hg. rewrite (handle_ajax_known _ save_assessment) by done.
      by rewrite save_assessment_missing_key.
    + intros Hs Hg. rewrite (handle_ajax_known _ save_hint) by done.
      by rewrite save_hint_missing_key.
Qed.

(** C8. With a state that is none of the four defined values,
    [get_rubric_html] and [get_hint_html] raise [ValueError] and return no
    view; with one of the four they return a view and do not raise. *)
Theorem view_assembly_state_check system self :
  (state self ∉ defined_states ->
     (exists msg, get_rubric_html system self = (Raise (ValueError msg), self))
     /\ (exists msg, get_hint_html system self = (Raise (ValueError msg), self)))
  /\ (state self ∈ defined_states ->
     (exists html, get_rubric_html system self = (Return html, self))
     /\ (exists html, get_hint_html system self = (Return html, self))).
Proof.
  split; intros Hs; split.
  - eexists. by apply get_rubric_html_illegal.
  - eexists. by apply get_hint_html_illegal.
  - by apply get_rubric_html_defined.
  - by apply get_hint_html_defined.
Qed.

(** C9. [definition_from_xml] raises [ValueError] when the definition does
    not hold exactly one [submitmessage] child or not exactly one
    [hintprompt] child (none, or more than one); otherwise it returns a
    dictionary whose keys are exactly those two, each bound to the text of
    its one element.  No runtime operation of the workflow makes this check:
    the handlers and [handle_ajax] never raise [ValueError]. *)
Theorem definition_from_xml_validates xml_object system :
  (length (xpath "submitmessage" xml_object) <> 1%nat
   \/ length (xpath "hintprompt" xml_object) <> 1%nat ->
     exists child,
       child ∈ ["submitmessage"; "hintprompt"]
       /\ definition_from_xml xml_object system
          = Raise (ValueError (exactly_one_message child)))
  /\ (length (xpath "submitmessage" xml_object) = 1%nat ->
      length (xpath "hintprompt" xml_object) = 1%nat ->
     exists d sm hp,
       definition_from_xml xml_object system = Return d
       /\ dom d = {[ "submitmessage"; "hintprompt" ]}
       /\ xpath "submitmessage" xml_object = [sm]
       /\ xpath "hintprompt" xml_object = [hp]
       /\ d !! "submitmessage" = Some (stringify_children sm)
       /\ d !! "hintprompt" = Some (stringify_children hp))
  /\ (forall dispatch get self msg self',
      handle_ajax dispatch get system self <> (Raise (ValueError msg), self')
      /\ save_answer get system self <> (Raise (ValueError msg), self')
      /\ save_assessment get system self <> (Raise (ValueError msg), self')
      /\ save_hint get system self <> (Raise (ValueError msg), self')).
Proof.
  split; [|split].
  - intros H.
    destruct (decide (length (xpath "submitmessage" xml_object) = 1%nat))
      as [Hs|Hs].
    + destruct H as [Hsm|Hhp]; [done|]. exists "hintprompt".
      split; [|by apply definition_from_xml_hintprompt].
      apply elem_of_cons. right. apply elem_of_cons. by left.
    + exists "submitmessage".
      split; [|by apply definition_from_xml_submitmessage].
      apply elem_of_cons. by left.
  - intros Hs Hh.
    destruct (definition_from_xml_loads xml_object system Hs Hh)
      as (sm & hp & Hsm & Hhp & Hd).
    eexists. exists sm, hp. split; [exact Hd|].
    split; [|split; [exact Hsm|split; [exact Hhp|split; by simplify_map_eq]]].
    rewrite dom_insert_L, dom_singleton_L. set_solver.
  - intros dispatch get self msg self'.
    assert (forall (A : Type) (r : outcome A * SelfAssessmentModule),
              returns_or_key_error r -> r <> (Raise (ValueError msg), self'))
      as Hno.
    { intros A r [(a & s' & ->)|(k & s' & ->)]; discriminate. }
    repeat split; apply Hno.
    + apply handle_ajax_outcome.
    + apply save_answer_outcome.
    + apply save_assessment_outcome.
    + apply save_hint_outcome.
Qed.

(** C10. The attempt guard of [save_answer] comes before its state check:
    with [attempts > max_attempts] the result is the ['Too many attempts.']
    failure and the instance is untouched, whatever the state; in a state
    other than [INITIAL] this is not the out-of-sync rejection that the same
    call gets within the limit. *)
Theorem attempt_guard_precedes_state_check get system self :
  (attempts self > max_attempts self ->
     save_answer get system self
       = (Return ({[ "success" := VBool false;
                     "error" := VStr "Too many attempts." ]} : dict), self)
     /\ save_answer get system self <> out_of_sync_error get self)
  /\ (attempts self <= max_attempts self -> state self <> INITIAL ->
     save_answer get system self = out_of_sync_error get self).
Proof.
  split; [|apply save_answer_out_of_sync].
  intros Hgt. rewrite save_answer_over_limit by done.
  split; [reflexivity|]. intros H.
  apply (f_equal (fun r => match r.1 with
                           | Return d => d !! "error"
                           | Raise _ => None
                           end)) in H.
  vm_compute in H. discriminate.
Qed.

(** ** Further properties of the module *)

Lemma out_of_sync_failure get self :
  exists d, out_of_sync_error get self = (Return d, self)
            /\ failure (Return d).
Proof.
  destruct (out_of_sync_error_envelope get self) as (d & Hd & He).
  exists d. split; [exact Hd|]. right. eauto.
Qed.

(** Every call of [save_answer] either fails and leaves the instance as it
    was, or is one transition with a success envelope. *)
Lemma save_answer_result get system self o self' :
  save_answer get system self = (o, self') ->
  (self' = self /\ failure o)
  \/ (transition self self' /\ exists d, o = Return d /\ success_envelope d).
Proof.
  destruct (decide (attempts self > max_attempts self)) as [Ha|Ha].
  { rewrite save_answer_over_limit by done. intros [= <- <-]. left.
    split; [done|]. right. exists too_many_attempts.
    split; [done|]. apply too_many_attempts_envelope. }
  destruct (decide (state self = INITIAL)) as [Hs|Hs].
  - destruct (get !! "student_answer") as [a|] eqn:Hg.
    + rewrite (save_answer_accepts _ _ _ a) by (done || lia).
      intros [= <- <-]. right. split.
      * apply (answer_submitted _ _ a); [lia|done..].
      * eexists. split; [reflexivity|]. split; by simplify_map_eq.
    + rewrite save_answer_missing_key by (done || lia).
      intros [= <- <-]. left. split; [done|]. left. eauto.
  - rewrite save_answer_out_of_sync by (done || lia).
    destruct (out_of_sync_failure get self) as (d & -> & Hf).
    intros [= <- <-]. by left.
Qed.

Lemma save_assessment_result get system self o self' :
  save_assessment get system self = (o, self') ->
  (self' = self /\ failure o)
  \/ (transition self self' /\ exists d, o = Return d /\ success_envelope d).
Proof.
  destruct (decide (state self = ASSESSING)) as [Hs|Hs].
  - destruct (get !! "assessment") as [a|] eqn:Hg.
    + destruct (int a) as [z|] eqn:Hi.
      * destruct (decide (z = max_score self)) as [Hz|Hz].
        -- destruct (save_assessment_max get system self a z)
             as (d & -> & Hok & _ & He); [done..|].
           intros [= <- <-]. right. split.
           ++ apply (score_submitted _ _ z); [done|].
              unfold max_score in Hz. by rewrite bool_decide_eq_true_2.
           ++ by exists d.
        -- destruct (save_assessment_other get system self a z)
             as (d & -> & Hok & _ & He); [done..|].
           intros [= <- <-]. right. split.
           ++ apply (score_submitted _ _ z); [done|].
              unfold max_score in Hz. by rewrite bool_decide_eq_false_2.
           ++ by exists d.
      * rewrite (save_assessment_non_integer _ _ _ a) by done.
        intros [= <- <-]. left. split; [done|]. right.
        exists non_integer_score. split; [done|].
        apply non_integer_score_envelope.
    + rewrite save_assessment_missing_key by done.
      intros [= <- <-]. left. split; [done|]. left. eauto.
  - rewrite save_assessment_out_of_sync by done.
    destruct (out_of_sync_failure get self) as (d & -> & Hf).
    intros [= <- <-]. by left.
Qed.

Lemma save_hint_result get system self o self' :
  save_hint get system self = (o, self') ->
  (self' = self /\ failure o)
  \/ (transition self self' /\ exists d, o = Return d /\ success_envelope d).
Proof.
  destruct (decide (state self = POST_ASSESSMENT)) as [Hs|Hs].
  - destruct (get !! "hint") as [t|] eqn:Hg.
    + destruct (save_hint_accepts get system self t) as (d & -> & Hok & He);
        [done..|].
      intros [= <- <-]. right. split.
      * by apply (hint_submitted _ _ t).
      * by exists d.
    + rewrite save_hint_missing_key by done.
      intros [= <- <-]. left. split; [done|]. left. eauto.
  - rewrite save_hint_out_of_sync by done.
    destruct (out_of_sync_failure get self) as (d & -> & Hf).
    intros [= <- <-]. by left.
Qed.

Lemma handler_result dispatch (handler : payload -> ModuleSystem -> M dict)
    get system self o self' :
  handlers !! dispatch = Some handler ->
  handler get system self = (o, self') ->
  (self' = self /\ failure o)
  \/ (transition self self' /\ exists d, o = Return d /\ success_envelope d).
Proof.
  intros [(_ & ->)|[(_ & ->)|(_ & ->)]]%handlers_inv.
  - apply save_answer_result.
  - apply save_assessment_result.
  - apply save_hint_result.
Qed.

(** The same for [handle_ajax], with what it adds to the envelope. *)
Lemma handle_ajax_result dispatch get system self r self' :
  handle_ajax dispatch get system self = (r, self') ->
  (self' = self
   /\ (r = Return (Text "Error")
       \/ (exists k, r = Raise (KeyError k))
       \/ (exists env, r = Return (Json env) /\ error_envelope env
             /\ env !! "progress_changed" = Some (VBool false))))
  \/ (transition self self'
      /\ exists env, r = Return (Json env) /\ success_envelope env).
Proof.
  destruct (handlers !! dispatch) as [handler|] eqn:Hh.
  - rewrite (handle_ajax_known _ handler) by done.
    destruct (handler get system self) as [o s'] eqn:Hd.
    destruct (handler_result _ _ _ _ _ _ _ Hh Hd)
      as [(-> & [(k & ->)|(d & -> & Hs & msg & He)])
         |(Ht & d & -> & Hs & He)].
    + intros [= <- <-]. left. split; [done|]. right. left. eauto.
    + intros [= <- <-]. left. split; [done|]. right. right.
      destruct (update_progress_fields d (get_progress self) (get_progress self))
        as (Hc & _ & Hk).
      eexists. split; [reflexivity|]. split; [split|].
      * by rewrite Hk.
      * exists msg. by rewrite Hk.
      * rewrite Hc. do 2 f_equal. apply bool_decide_eq_false_2. auto.
    + intros [= <- <-]. right. split; [done|].
      destruct (update_progress_fields d (get_progress self) (get_progress s'))
        as (_ & _ & Hk).
      eexists. split; [reflexivity|]. split; by rewrite Hk.
  - unfold handle_ajax. rewrite Hh. intros [= <- <-]. left. split; [done|].
    by left.
Qed.

Lemma alter_answers (f : AttemptRecord -> AttemptRecord) (n : nat)
    (h : list AttemptRecord) :
  (forall r, answer (f r) = answer r) ->
  answer <$> alter f n h = answer <$> h.
Proof.
  intros Hf. revert n.
  induction h as [|r h IH]; intros [|n]; simpl; try reflexivity.
  - f_equal. apply Hf.
  - f_equal. apply IH.
Qed.

Lemma scored_answers z (h : list AttemptRecord) :
  answer <$> scored z h = answer <$> h.
Proof. by apply alter_answers. Qed.

Lemma hinted_answers t (h : list AttemptRecord) :
  answer <$> hinted t h = answer <$> h.
Proof. by apply alter_answers. Qed.

(** X1. A call of [handle_ajax] that does not come back with [success] true
    (an unknown action, a raised [KeyError], an error envelope) hands the
    instance back exactly as it was. *)
Theorem failed_call_changes_nothing dispatch get system self r self' :
  handle_ajax dispatch get system self = (r, self') ->
  (forall env, r = Return (Json env) -> env !! "success" <> Some (VBool true)) ->
  self' = self.
Proof.
  intros [(-> & _)|(_ & env & -> & Hs & _)]%handle_ajax_result Hfail; [done|].
  by destruct (Hfail env eq_refl).
Qed.

(** X2. Every envelope [handle_ajax] returns carries a boolean [success],
    and it carries an [error] exactly when [success] is false. *)
Theorem envelope_success_and_error dispatch get system self env self' :
  handle_ajax dispatch get system self = (Return (Json env), self') ->
  exists b, env !! "success" = Some (VBool b)
    /\ (is_Some (env !! "error") <-> b = false).
Proof.
  intros [(_ & [H|[(k & H)|(env' & H & (Hs & msg & He) & _)]])
         |(_ & env' & H & Hs & He)]%handle_ajax_result;
    try discriminate; injection H as <-.
  - exists false. split; [done|]. split; [done|]. intros _. by rewrite He.
  - exists true. split; [done|]. rewrite He. split; [by intros [? ?]|done].
Qed.

(** X3. [handle_ajax] moves the state only along the edges
    [INITIAL] to [ASSESSING], [ASSESSING] to [POST_ASSESSMENT] or [DONE],
    and [POST_ASSESSMENT] to [DONE]; otherwise the state stays. *)
Theorem handle_ajax_follows_state_table dispatch get system self r self' :
  handle_ajax dispatch get system self = (r, self') ->
  state self' = state self
  \/ (state self = INITIAL /\ state self' = ASSESSING)
  \/ (state self = ASSESSING
      /\ (state self' = POST_ASSESSMENT \/ state self' = DONE))
  \/ (state self = POST_ASSESSMENT /\ state self' = DONE).
Proof.
  intros [(-> & _)|(Ht & _)]%handle_ajax_result; [by left|].
  destruct Ht as [a _ Hs ->|z Hs ->|t Hs ->]; simpl.
  - right. left. done.
  - right. right. left. split; [done|]. case_bool_decide; auto.
  - right. right. right. done.
Qed.

(** X4. [DONE] and every state outside the four are absorbing for
    [handle_ajax]: whatever the action and the payload, the instance comes
    back as it was. *)
Theorem done_and_illegal_states_absorb dispatch get system self r self' :
  state self = DONE \/ state self ∉ defined_states ->
  handle_ajax dispatch get system self = (r, self') ->
  self' = self.
Proof.
  intros Hs [(-> & _)|(Ht & _)]%handle_ajax_result; [done|].
  exfalso.
  assert (state self ∈ defined_states -> state self <> DONE -> False) as Habs.
  { intros _ Hd. destruct Hs as [Hs|Hs]; [done|].
    apply not_defined_inv in Hs as (Hi & Ha & Hp & _).
    destruct Ht; congruence. }
  destruct Ht as [a _ Hst _|z Hst _|t Hst _]; apply Habs; rewrite Hst;
    unfold defined_states; (done || (repeat constructor)).
Qed.

(** X5. [handle_ajax] never touches the configuration of the instance:
    attempt limit, maximum score, prompt, rubric, hint prompt and submit
    message are the same after any call. *)
Theorem handle_ajax_keeps_configuration dispatch get system self r self' :
  handle_ajax dispatch get system self = (r, self') ->
  max_attempts self' = max_attempts self
  /\ _max_score self' = _max_score self
  /\ prompt self' = prompt self
  /\ rubric self' = rubric self
  /\ hint_prompt self' = hint_prompt self
  /\ submit_message self' = submit_message self.
Proof.
  intros [(-> & _)|(Ht & _)]%handle_ajax_result; [done|].
  destruct Ht as [a _ _ ->|z _ ->|t _ ->]; done.
Qed.

(** X6. [handle_ajax] never rewrites or drops an answer: after any call the
    history either has the same length and the same answers in the same
    order, or it is the old history followed by one new record that has
    neither score nor hint. *)
Theorem handle_ajax_keeps_answers dispatch get system self r self' :
  handle_ajax dispatch get system self = (r, self') ->
  (length (history self') = length (history self)
   /\ answer <$> history self' = answer <$> history self)
  \/ (exists a, history self' = history self ++ [mkAttempt a None None]).
Proof.
  intros [(-> & _)|(Ht & _)]%handle_ajax_result; [by left|].
  destruct Ht as [a _ _ ->|z _ ->|t _ ->]; simpl.
  - right. by exists a.
  - left. split; [apply alter_latest_length|apply scored_answers].
  - left. split; [apply alter_latest_length|apply hinted_answers].
Qed.

(** X7. An envelope with [success] false never reports a change of
    progress: its [progress_changed] is false. *)
Theorem failure_reports_no_progress dispatch get system self env self' :
  handle_ajax dispatch get system self = (Return (Json env), self') ->
  env !! "success" = Some (VBool false) ->
  env !! "progress_changed" = Some (VBool false).
Proof.
  intros [(_ & [H|[(k & H)|(env' & H & _ & Hp)]])
         |(_ & env' & H & Hs & _)]%handle_ajax_result Hfalse;
    try discriminate; injection H as <-; [done|congruence].
Qed.



(** Sequencing two calls whose first one returns. *)
Lemma bind_return {A B : Type} (m : M A) (k : M B) self a self' :
  m self = (Return a, self') -> (m ;; k) self = k self'.
Proof. intros H. unfold mbind, M_bind. by rewrite H. Qed.

(** X9. One full cycle.  From [INITIAL] within the attempt limit, an answer,
    then a score, leave the history with one more record holding that answer
    and that score: with the maximum score the state is [DONE]; with any
    other score the state is [POST_ASSESSMENT], and a hint sent next sets the
    hint of that same record and ends in [DONE]. *)
Theorem full_cycle get1 get2 get3 system self a za z t :
  attempts self <= max_attempts self ->
  state self = INITIAL ->
  get1 !! "student_answer" = Some a ->
  get2 !! "assessment" = Some za ->
  int za = Some z ->
  get3 !! "hint" = Some t ->
  (z = max_score self ->
     exists d self',
       (save_answer get1 system ;; save_assessment get2 system) self
         = (Return d, self')
       /\ state self' = DONE
       /\ history self' = history self ++ [mkAttempt a (Some z) None])
  /\ (z <> max_score self ->
     (exists d self',
       (save_answer get1 system ;; save_assessment get2 system) self
         = (Return d, self')
       /\ state self' = POST_ASSESSMENT
       /\ history self' = history self ++ [mkAttempt a (Some z) None])
     /\ exists d self',
       (save_answer get1 system ;; save_assessment get2 system ;;
        save_hint get3 system) self = (Return d, self')
       /\ d !! "success" = Some (VBool true)
       /\ state self' = DONE
       /\ history self' = history self ++ [mkAttempt a (Some z) (Some t)]).
Proof.
  intros Ha Hs Hg1 Hg2 Hi Hg3.
  pose proof (save_answer_accepts get1 system self a Ha Hs Hg1) as H1.
  set (s1 := set_state ASSESSING
               (set_history (history self ++ [mkAttempt a None None]) self)) in *.
  assert (scored z (history s1) = history self ++ [mkAttempt a (Some z) None])
    as Hsc by apply scored_snoc.
  split.
  - intros Hz.
    destruct (save_assessment_max get2 system s1 za z) as (d & Hd & _);
      [done..|].
    exists d. eexists. rewrite (bind_return _ _ _ _ _ H1). split; [exact Hd|].
    split; [done|]. exact Hsc.
  - intros Hz.
    destruct (save_assessment_other get2 system s1 za z) as (d2 & Hd2 & _);
      [done..|].
    set (s2 := set_state POST_ASSESSMENT (set_history (scored z (history s1)) s1))
      in *.
    split.
    + exists d2, s2. rewrite (bind_return _ _ _ _ _ H1). split; [exact Hd2|].
      split; [done|]. exact Hsc.
    + destruct (save_hint_accepts get3 system s2 t) as (d3 & Hd3 & Hok & _);
        [done..|].
      exists d3. eexists. rewrite (bind_return _ _ _ _ _ H1).
      rewrite (bind_return _ _ _ _ _ Hd2). split; [exact Hd3|].
      split; [exact Hok|]. split; [done|].
      subst s1 s2. simpl. rewrite scored_snoc. apply hinted_snoc.
Qed.

(** X10. What a successful [save_assessment] puts in its envelope: [state]
    is the state the instance is left in; ending in [DONE] the envelope has
    the message and the reset flag and no hint view; ending in
    [POST_ASSESSMENT] it has the hint view of the new instance and neither
    message nor reset flag. *)
Theorem save_assessment_envelope get system self a z :
  state self = ASSESSING ->
  get !! "assessment" = Some a ->
  int a = Some z ->
  exists d self',
    save_assessment get system self = (Return d, self')
    /\ d !! "state" = Some (VState (state self'))
    /\ (state self' = DONE ->
        d !! "message_html" = Some (VStr (get_message_html self'))
        /\ d !! "allow_reset" = Some (VBool (_allow_reset self'))
        /\ d !! "hint_html" = None)
    /\ (state self' = POST_ASSESSMENT ->
        (exists html, get_hint_html system self' = (Return html, self')
                      /\ d !! "hint_html" = Some (VStr html))
        /\ d !! "message_html" = None
        /\ d !! "allow_reset" = None).
Proof.
  intros Hs Hg Hi. run.
  rewrite bool_decide_eq_false_2 by (intros H; apply H; exact Hs).
  rewrite Hg, Hi. unfold max_score. simpl.
  case_bool_decide; simpl.
  - do 2 eexists. split; [reflexivity|]. simpl.
    split; [by simplify_map_eq|]. split; [|discriminate].
    intros _. repeat split; by simplify_map_eq.
  - do 2 eexists. split; [reflexivity|]. simpl.
    split; [by simplify_map_eq|]. split; [discriminate|].
    intros _. split; [|split; by simplify_map_eq].
    eexists. split; [reflexivity|]. by simplify_map_eq.
Qed.

(** X11. A successful [save_answer] returns exactly the keys [success] and
    [rubric_html], the latter being the rubric view of the instance it
    leaves behind, rendered for editing. *)
Theorem save_answer_envelope get system self a :
  attempts self <= max_attempts self ->
  state self = INITIAL ->
  get !! "student_answer" = Some a ->
  exists d self' ctx,
    save_answer get system self = (Return d, self')
    /\ dom d = {[ "success"; "rubric_html" ]}
    /\ get_rubric_html system self'
       = (Return (render_template system "self_assessment_rubric.html" ctx), self')
    /\ d !! "rubric_html"
       = Some (VStr (render_template system "self_assessment_rubric.html" ctx))
    /\ ctx !! "read_only" = Some (VBool false).
Proof.
  intros Ha Hs Hg. rewrite (save_answer_accepts _ _ _ a) by done.
  do 3 eexists. split; [reflexivity|]. split.
  { rewrite dom_insert_L, dom_singleton_L. reflexivity. }
  split; [reflexivity|]. split; by simplify_map_eq.
Qed.

(** X12. The modes of the rubric view: nothing in [INITIAL]; in the three
    other defined states the template gets the rendered rubric and the
    maximum score, editable in [ASSESSING] and read-only in
    [POST_ASSESSMENT] and [DONE]. *)
Theorem rubric_view_modes system self :
  (state self = INITIAL -> get_rubric_html system self = (Return "", self))
  /\ (state self ∈ [ASSESSING; POST_ASSESSMENT; DONE] ->
      exists ctx,
        get_rubric_html system self
          = (Return (render_template system "self_assessment_rubric.html" ctx),
             self)
        /\ ctx !! "rubric" = Some (VStr (render_rubric (rubric self) system))
        /\ ctx !! "max_score" = Some (VInt (_max_score self))
        /\ ctx !! "read_only" = Some (VBool (bool_decide (state self ≠ ASSESSING)))).
Proof.
  split.
  - intros Hs. run. by rewrite Hs.
  - intros Hs. run.
    repeat (apply elem_of_cons in Hs as [Hs|Hs]); [..|by apply elem_of_nil in Hs];
      rewrite Hs; eexists; (split; [reflexivity|]);
      repeat split; by simplify_map_eq.
Qed.

(** X13. The modes of the hint view: nothing in [INITIAL] and [ASSESSING];
    in [POST_ASSESSMENT] an editable view with an empty hint, whatever the
    history holds; in [DONE] a read-only view of the latest hint, or of the
    empty text when there is none. *)
Theorem hint_view_modes system self :
  (state self ∈ [INITIAL; ASSESSING] ->
     get_hint_html system self = (Return "", self))
  /\ (state self = POST_ASSESSMENT ->
      exists ctx,
        get_hint_html system self
          = (Return (render_template system "self_assessment_hint.html" ctx), self)
        /\ ctx !! "hint_prompt" = Some (VStr (hint_prompt self))
        /\ ctx !! "hint" = Some (VStr "")
        /\ ctx !! "read_only" = Some (VBool false))
  /\ (state self = DONE ->
      exists ctx,
        get_hint_html system self
          = (Return (render_template system "self_assessment_hint.html" ctx), self)
        /\ ctx !! "hint_prompt" = Some (VStr (hint_prompt self))
        /\ ctx !! "hint"
           = Some (VStr (default "" (latest_post_assessment system self)))
        /\ ctx !! "read_only" = Some (VBool true)).
Proof.
  split; [|split].
  - intros Hs. run.
    repeat (apply elem_of_cons in Hs as [Hs|Hs]); [..|by apply elem_of_nil in Hs];
      by rewrite Hs.
  - intros Hs. run. rewrite Hs. eexists. split; [reflexivity|].
    repeat split; by simplify_map_eq.
  - intros Hs. run. rewrite Hs. eexists. split; [reflexivity|].
    repeat split; by simplify_map_eq.
Qed.

(** X14. The message view is empty exactly when the state is not [DONE]. *)
Theorem message_view_empty_iff self :
  get_message_html self = "" <-> state self <> DONE.
Proof.
  unfold get_message_html. case_bool_decide as Hs.
  - done.
  - split; [discriminate|]. intros Hn. by destruct Hs.
Qed.

(** [get_html] once both views are there. *)
Lemma get_html_views system self rub hin :
  get_rubric_html system self = (Return rub, self) ->
  get_hint_html system self = (Return hin, self) ->
  exists ctx,
    get_html system self
      = (Return (render_template system "self_assessment_prompt.html" ctx), self)
    /\ ctx !! "previous_answer"
       = Some (VStr (if bool_decide (state self ≠ INITIAL)
                     then default "" (latest_answer self) else ""))
    /\ ctx !! "initial_rubric" = Some (VStr rub)
    /\ ctx !! "initial_hint" = Some (VStr hin)
    /\ ctx !! "initial_message" = Some (VStr (get_message_html self))
    /\ ctx !! "state" = Some (VState (state self))
    /\ ctx !! "allow_reset" = Some (VBool (_allow_reset self))
    /\ ctx !! "prompt" = Some (VStr (prompt self)).
Proof.
  intros Hr Hh. unfold get_html, read. unfold mbind, mret, M_bind, M_ret.
  rewrite Hr, Hh. eexists. split; [reflexivity|].
  repeat split; by simplify_map_eq.
Qed.


(** X16. The page of an instance in [INITIAL] shows nothing of earlier
    cycles: previous answer, rubric view, hint view and message are empty
    and no reset is offered, whatever the history holds.  In the three other
    defined states the previous answer is the latest answer of the history,
    or empty when the history has none. *)
Theorem get_html_previous_answer system self :
  (state self = INITIAL ->
     exists ctx,
       get_html system self
         = (Return (render_template system "self_assessment_prompt.html" ctx),
            self)
       /\ ctx !! "previous_answer" = Some (VStr "")
       /\ ctx !! "initial_rubric" = Some (VStr "")
       /\ ctx !! "initial_hint" = Some (VStr "")
       /\ ctx !! "initial_message" = Some (VStr "")
       /\ ctx !! "allow_reset" = Some (VBool false))
  /\ (state self ∈ [ASSESSING; POST_ASSESSMENT; DONE] ->
     exists ctx,
       get_html system self
         = (Return (render_template system "self_assessment_prompt.html" ctx),
            self)
       /\ ctx !! "previous_answer"
          = Some (VStr (default "" (latest_answer self)))).
Proof.
  split; intros Hs.
  - assert (get_rubric_html system self = (Return "", self)) as Hr
      by (run; by rewrite Hs).
    assert (get_hint_html system self = (Return "", self)) as Hh
      by (run; by rewrite Hs).
    destruct (get_html_views system self _ _ Hr Hh)
      as (ctx & Hc & Hp & Hru & Hhi & Hm & _ & Ha & _).
    exists ctx. split; [exact Hc|].
    rewrite Hp, Hru, Hhi, Hm, Ha.
    unfold get_message_html, _allow_reset. rewrite Hs. done.
  - assert (state self ∈ defined_states) as Hd.
    { unfold defined_states. by apply elem_of_cons; right. }
    destruct (get_rubric_html_defined system self Hd) as (rub & Hr).
    destruct (get_hint_html_defined system self Hd) as (hin & Hh).
    destruct (get_html_views system self rub hin Hr Hh) as (ctx & Hc & Hp & _).
    exists ctx. split; [exact Hc|]. rewrite Hp.
    rewrite bool_decide_eq_true_2; [done|].
    intros Hi. rewrite Hi in Hs.
    repeat (apply elem_of_cons in Hs as [Hs|Hs]; [discriminate|]).
    by apply elem_of_nil in Hs.
Qed.

(** [definition_from_xml] returns only for a definition with one child of
    each tag. *)
Lemma definition_from_xml_returns_inv xml_object system d :
  definition_from_xml xml_object system = Return d ->
  exists sm hp,
    xpath "submitmessage" xml_object = [sm]
    /\ xpath "hintprompt" xml_object = [hp]
    /\ d = {[ "submitmessage" := stringify_children sm;
              "hintprompt" := stringify_children hp ]}.
Proof.
  intros Hd.
  destruct (decide (length (xpath "submitmessage" xml_object) = 1%nat)) as [Hs|Hs].
  - destruct (decide (length (xpath "hintprompt" xml_object) = 1%nat)) as [Hh|Hh].
    + destruct (definition_from_xml_loads xml_object system Hs Hh)
        as (sm & hp & Hsm & Hhp & Heq).
      exists sm, hp. repeat split; [done..|]. congruence.
    + rewrite definition_from_xml_hintprompt in Hd by done. discriminate.
  - rewrite definition_from_xml_submitmessage in Hd by done. discriminate.
Qed.

(** X17. Loading then setting up never fails on a key: with the dictionary
    [definition_from_xml] returns, [setup_response] returns an instance whose
    submit message and hint prompt are the texts of the one [submitmessage]
    and the one [hintprompt] child, whose prompt and rubric are the texts of
    their elements, and whose state, history and counters are as loaded. *)
Theorem setup_after_load xml_object system d self :
  definition_from_xml xml_object system = Return d ->
  exists sm hp,
    xpath "submitmessage" xml_object = [sm]
    /\ xpath "hintprompt" xml_object = [hp]
    /\ setup_response system d self
       = Return (mkModule (u_state self) (u_history self) (u_attempts self)
                   (u_max_attempts self) (u_max_score self)
                   (stringify_children (u_prompt self))
                   (stringify_children (u_rubric self))
                   (stringify_children hp) (stringify_children sm)).
Proof.
  intros (sm & hp & Hsm & Hhp & ->)%definition_from_xml_returns_inv.
  exists sm, hp. repeat split; [done..|].
  unfold setup_response, getitem. by simplify_map_eq.
Qed.

(** X18. [setup_response] returns exactly when the definition holds both
    keys; without [submitmessage] it raises the [KeyError] of
    [submitmessage], also when [hintprompt] is missing too, and with
    [submitmessage] but without [hintprompt] the [KeyError] of
    [hintprompt]. *)
Theorem setup_response_keys system (definition : gmap string string) self :
  ((exists m, setup_response system definition self = Return m)
   <-> is_Some (definition !! "submitmessage")
       /\ is_Some (definition !! "hintprompt"))
  /\ (definition !! "submitmessage" = None ->
      setup_response system definition self = Raise (KeyError "submitmessage"))
  /\ (is_Some (definition !! "submitmessage") ->
      definition !! "hintprompt" = None ->
      setup_response system definition self = Raise (KeyError "hintprompt")).
Proof.
  unfold setup_response, getitem.
  destruct (definition !! "submitmessage") as [sm|];
    destruct (definition !! "hintprompt") as [hp|]; simpl;
    (split; [split|split]); try done;
    try (intros [m Hm]; discriminate);
    try (intros [[? ?] [? ?]]; discriminate);
    try (intros [? ?]; discriminate); eauto.
Qed.

(** X19. Writing a definition out and loading it again.  When the parser
    reads each of the two child texts as an element with the tag it was
    written under, [definition_to_xml] builds a [selfassessment] element
    with those two children in the order [submitmessage], [hintprompt], and
    [definition_from_xml] accepts it, giving the texts of the two parsed
    children; when those texts are the bodies written, the loaded dictionary
    agrees with the definition on both keys. *)
Theorem definition_to_xml_loads_back (definition : gmap string string)
    system sm hp e1 e2 :
  definition !! "submitmessage" = Some sm ->
  definition !! "hintprompt" = Some hp ->
  fromstring (child_str "submitmessage" sm) = Some e1 ->
  fromstring (child_str "hintprompt" hp) = Some e2 ->
  tag_of e1 = "submitmessage" ->
  tag_of e2 = "hintprompt" ->
  definition_to_xml definition = Built (Element "selfassessment" "" [e1; e2])
  /\ definition_from_xml (Element "selfassessment" "" [e1; e2]) system
     = Return {[ "submitmessage" := stringify_children e1;
                 "hintprompt" := stringify_children e2 ]}
  /\ (stringify_children e1 = sm -> stringify_children e2 = hp ->
      forall d k, definition_from_xml (Element "selfassessment" "" [e1; e2]) system
                  = Return d ->
                  k ∈ ["submitmessage"; "hintprompt"] ->
                  d !! k = definition !! k).
Proof.
  intros Hsm Hhp H1 H2 Ht1 Ht2.
  assert (definition_from_xml (Element "selfassessment" "" [e1; e2]) system
          = Return {[ "submitmessage" := stringify_children e1;
                      "hintprompt" := stringify_children e2 ]}) as Hload.
  { destruct (definition_from_xml_loads
                (Element "selfassessment" "" [e1; e2]) system)
      as (a & b & Ha & Hb & ->).
    - unfold xpath. simpl. rewrite filter_cons_True by done.
      rewrite filter_cons_False by (rewrite Ht2; discriminate). done.
    - unfold xpath. simpl.
      rewrite filter_cons_False by (rewrite Ht1; discriminate).
      rewrite filter_cons_True by done. done.
    - unfold xpath in Ha, Hb. simpl in Ha, Hb.
      rewrite filter_cons_True in Ha by done.
      rewrite filter_cons_False in Ha by (rewrite Ht2; discriminate).
      rewrite filter_cons_False in Hb by (rewrite Ht1; discriminate).
      rewrite filter_cons_True in Hb by done.
      simpl in Ha, Hb. by injection Ha as <-; injection Hb as <-. }
  split; [|split; [exact Hload|]].
  - unfold definition_to_xml. simpl. rewrite Hsm, H1. simpl. by rewrite Hhp, H2.
  - intros Hs1 Hs2 d k Hd Hk. rewrite Hload in Hd. injection Hd as <-.
    rewrite Hs1, Hs2.
    apply elem_of_cons in Hk as [->|Hk]; [by simplify_map_eq|].
    apply elem_of_cons in Hk as [->|Hk]; [by simplify_map_eq|].
    by apply elem_of_nil in Hk.
Qed.

(** X20. The outcomes of [definition_from_xml] in full: it returns exactly
    when each of the two tags has one child; otherwise it raises the
    [ValueError] that names [submitmessage] when that count is off, and the
    one that names [hintprompt] only when [submitmessage] is fine.  The
    indexing [xpath(k)[0]] behind a passed check never fails. *)
Theorem definition_from_xml_outcomes xml_object system :
  ((exists d, definition_from_xml xml_object system = Return d)
   <-> length (xpath "submitmessage" xml_object) = 1%nat
       /\ length (xpath "hintprompt" xml_object) = 1%nat)
  /\ (forall e, definition_from_xml xml_object system = Raise e ->
      (e = ValueError (exactly_one_message "submitmessage")
       /\ length (xpath "submitmessage" xml_object) <> 1%nat)
      \/ (e = ValueError (exactly_one_message "hintprompt")
          /\ length (xpath "submitmessage" xml_object) = 1%nat
          /\ length (xpath "hintprompt" xml_object) <> 1%nat)).
Proof.
  destruct (decide (length (xpath "submitmessage" xml_object) = 1%nat)) as [Hs|Hs].
  - destruct (decide (length (xpath "hintprompt" xml_object) = 1%nat)) as [Hh|Hh].
    + destruct (definition_from_xml_loads xml_object system Hs Hh)
        as (sm & hp & _ & _ & ->).
      split; [split; eauto|]. discriminate.
    + rewrite definition_from_xml_hintprompt by done.
      split; [split; [by intros [? ?]|by intros [_ ?]]|].
      intros e [= <-]. by right.
  - rewrite definition_from_xml_submitmessage by done.
    split; [split; [by intros [? ?]|by intros [? _]]|].
    intros e [= <-]. by left.
Qed.

Lemma xpath_without (k t t' txt txt' : string) (cs1 cs2 : list xml) (c : xml) :
  tag_of c <> k ->
  xpath k (Element t txt (cs1 ++ c :: cs2))
  = xpath k (Element t' txt' (cs1 ++ cs2)).
Proof.
  intros Hc. unfold xpath. simpl.
  rewrite !filter_app. by rewrite filter_cons_False.
Qed.

(** X21. [definition_from_xml] looks at nothing but the children tagged
    [submitmessage] and [hintprompt]: a child with any other tag, wherever it
    stands, and the tag and text of the root element make no difference to
    what it returns or raises. *)
Theorem definition_from_xml_ignores_the_rest system
    (t t' txt txt' : string) (cs1 cs2 : list xml) (c : xml) :
  tag_of c <> "submitmessage" ->
  tag_of c <> "hintprompt" ->
  definition_from_xml (Element t txt (cs1 ++ c :: cs2)) system
  = definition_from_xml (Element t' txt' (cs1 ++ cs2)) system.
Proof.
  intros Hs Hh. unfold definition_from_xml. simpl.
  by rewrite (xpath_without "submitmessage" t t' txt txt'),
             (xpath_without "hintprompt" t t' txt txt').
Qed.

(** X22. [definition_to_xml] builds nothing partial: whenever it returns an
    element, the definition holds both keys, both child texts parsed, and
    the element is [selfassessment] with exactly the two parsed children,
    [submitmessage] first. *)
Theorem definition_to_xml_built (definition : gmap string string) elt :
  definition_to_xml definition = Built elt ->
  exists sm hp e1 e2,
    definition !! "submitmessage" = Some sm
    /\ definition !! "hintprompt" = Some hp
    /\ fromstring (child_str "submitmessage" sm) = Some e1
    /\ fromstring (child_str "hintprompt" hp) = Some e2
    /\ elt = Element "selfassessment" "" [e1; e2].
Proof.
  unfold definition_to_xml, add_children.
  destruct (definition !! "submitmessage") as [sm|] eqn:Hsm; [|discriminate].
  destruct (fromstring (child_str "submitmessage" sm)) as [e1|] eqn:H1;
    [|discriminate].
  destruct (definition !! "hintprompt") as [hp|] eqn:Hhp; [|discriminate].
  destruct (fromstring (child_str "hintprompt" hp)) as [e2|] eqn:H2;
    [|discriminate].
  simpl. intros [= <-]. exists sm, hp, e1, e2. repeat split; assumption.
Qed.

(** X23. A successful [save_hint] returns exactly the keys [success],
    [message_html] and [allow_reset]; the message is the submit message of
    the instance inside its [div]. *)
Theorem save_hint_envelope get system self t :
  state self = POST_ASSESSMENT ->
  get !! "hint" = Some t ->
  exists d self',
    save_hint get system self = (Return d, self')
    /\ dom d = {[ "success"; "message_html"; "allow_reset" ]}
    /\ d !! "message_html"
       = Some (VStr ("<div class=" +:+ dquote +:+ "save_message" +:+ dquote
                     +:+ ">" +:+ submit_message self +:+ "</div>"))
    /\ d !! "allow_reset" = Some (VBool (_allow_reset self')).
Proof.
  intros Hs Hg. run.
  rewrite bool_decide_eq_false_2 by (intros H; apply H; exact Hs).
  rewrite Hg. do 2 eexists. split; [reflexivity|]. split.
  { rewrite !dom_insert_L, dom_singleton_L. reflexivity. }
  split; by simplify_map_eq.
Qed.

(** X24. An action succeeds only in its own state: an envelope with
    [success] true means the action was [save_answer] in [INITIAL] within
    the attempt limit, [save_assessment] in [ASSESSING] with a score text
    that [int] reads, or [save_post_assessment] in [POST_ASSESSMENT], each
    with its key in the payload. *)
Theorem success_only_in_required_state dispatch get system self env self' :
  handle_ajax dispatch get system self = (Return (Json env), self') ->
  env !! "success" = Some (VBool true) ->
  (dispatch = "save_answer" /\ state self = INITIAL
     /\ attempts self <= max_attempts self
     /\ is_Some (get !! "student_answer"))
  \/ (dispatch = "save_assessment" /\ state self = ASSESSING
     /\ exists a z, get !! "assessment" = Some a /\ int a = Some z)
  \/ (dispatch = "save_post_assessment" /\ state self = POST_ASSESSMENT
     /\ is_Some (get !! "hint")).
Proof.
  intros Hr Hok.
  assert (forall d, error_envelope d ->
          update d (progress_fields (get_progress self) (get_progress self))
            !! "success" <> Some (VBool true)) as Hrej.
  { intros d (Hs & _).
    destruct (update_progress_fields d (get_progress self) (get_progress self))
      as (_ & _ & Hk). rewrite Hk by done. by rewrite Hs. }
  destruct (handlers !! dispatch) as [handler|] eqn:Hh.
  2:{ unfold handle_ajax in Hr. rewrite Hh in Hr. discriminate. }
  rewrite (handle_ajax_known _ handler) in Hr by done.
  destruct (handlers_inv _ _ Hh) as [(-> & ->)|[(-> & ->)|(-> & ->)]].
  - left. split; [done|].
    destruct (decide (attempts self > max_attempts self \/ state self <> INITIAL))
      as [H|H].
    { destruct (save_answer_rejects get system self H) as (d & Hd & He).
      rewrite Hd in Hr. injection Hr as <- <-. by destruct (Hrej d He). }
    assert (state self = INITIAL) as Hs.
    { destruct (decide (state self = INITIAL)); [done|]. exfalso. auto. }
    split; [done|]. split; [lia|].
    destruct (get !! "student_answer") as [a|] eqn:Hg; [by eexists|].
    rewrite save_answer_missing_key in Hr by (done || lia). discriminate.
  - right. left. split; [done|].
    destruct (decide (state self = ASSESSING)) as [Hs|Hs].
    + split; [done|].
      destruct (get !! "assessment") as [a|] eqn:Hg.
      * destruct (int a) as [z|] eqn:Hi; [by exists a, z|].
        rewrite (save_assessment_non_integer _ _ _ a) in Hr by done.
        injection Hr as <- <-.
        by destruct (Hrej _ non_integer_score_envelope).
      * rewrite save_assessment_missing_key in Hr by done. discriminate.
    + destruct (save_assessment_rejects get system self) as (d & Hd & He);
        [by left|].
      rewrite Hd in Hr. injection Hr as <- <-. by destruct (Hrej d He).
  - right. right. split; [done|].
    destruct (decide (state self = POST_ASSESSMENT)) as [Hs|Hs].
    + split; [done|].
      destruct (get !! "hint") as [t|] eqn:Hg; [by eexists|].
      rewrite save_hint_missing_key in Hr by done. discriminate.
    + destruct (save_hint_rejects get system self Hs) as (d & Hd & He).
      rewrite Hd in Hr. injection Hr as <- <-. by destruct (Hrej d He).
Qed.

End SelfAssessment.


(** ** The claims at concrete inputs *)

(** [save_hint] repeated on a finished instance is rejected and changes
    nothing. *)
Lemma out_of_state_rejected_witness :
  state finished <> POST_ASSESSMENT
  /\ exists d,
       save_hint {[ "hint" := "once more" ]} plain_system finished
         = (Return d, finished)
       /\ d !! "success" = Some (VBool false).
Proof.
  assert (state finished <> POST_ASSESSMENT) as Hs by (simpl; discriminate).
  split; [exact Hs|].
  destruct (out_of_state_rejected decimal_int plain_rubric
              {[ "hint" := "once more" ]} plain_system finished)
    as (_ & _ & H & _).
  exact (H Hs).
Defined.

(** The scores "3", "1" and "abc" against a maximum of 3. *)
Lemma save_assessment_transitions_witness :
  (exists d self',
     save_assessment decimal_int {[ "assessment" := "3" ]} plain_system assessing
       = (Return d, self')
     /\ d !! "success" = Some (VBool true)
     /\ state self' = DONE
     /\ history self' = [mkAttempt "foo" (Some 3) None])
  /\ (exists d self',
     save_assessment decimal_int {[ "assessment" := "1" ]} plain_system assessing
       = (Return d, self')
     /\ d !! "success" = Some (VBool true)
     /\ state self' = POST_ASSESSMENT
     /\ history self' = [mkAttempt "foo" (Some 1) None])
  /\ (exists d,
     save_assessment decimal_int {[ "assessment" := "abc" ]} plain_system assessing
       = (Return d, assessing)
     /\ d !! "success" = Some (VBool false)
     /\ d !! "error" = Some (VStr "Non-integer score value")).
Proof.
  split; [|split].
  - assert (({[ "assessment" := "3" ]} : payload) !! "assessment" = Some "3")
      as Hg by reflexivity.
    destruct (save_assessment_transitions decimal_int _ plain_system assessing
                "3" eq_refl Hg) as (H & _).
    apply (H 3); reflexivity.
  - assert (({[ "assessment" := "1" ]} : payload) !! "assessment" = Some "1")
      as Hg by reflexivity.
    destruct (save_assessment_transitions decimal_int _ plain_system assessing
                "1" eq_refl Hg) as (_ & H & _).
    apply (H 1); [reflexivity|]. vm_compute. discriminate.
  - assert (({[ "assessment" := "abc" ]} : payload) !! "assessment" = Some "abc")
      as Hg by reflexivity.
    destruct (save_assessment_transitions decimal_int _ plain_system assessing
                "abc" eq_refl Hg) as (_ & _ & H & _).
    apply H. reflexivity.
Defined.

(** At the limit the answer is accepted; beyond it the answer is blocked. *)
Lemma attempt_guard_is_strict_witness :
  (attempts at_limit = max_attempts at_limit
   /\ exists d self',
        save_answer plain_rubric {[ "student_answer" := "bar" ]} plain_system
          at_limit = (Return d, self')
        /\ d !! "success" = Some (VBool true)
        /\ state self' = ASSESSING)
  /\ (attempts over_limit > max_attempts over_limit
   /\ exists d,
        save_answer plain_rubric {[ "student_answer" := "bar" ]} plain_system
          over_limit = (Return d, over_limit)
        /\ d !! "success" = Some (VBool false)
        /\ d !! "error" = Some (VStr "Too many attempts.")).
Proof.
  split.
  - split; [reflexivity|].
    destruct (attempt_guard_is_strict plain_rubric
                {[ "student_answer" := "bar" ]} plain_system at_limit)
      as (H & _).
    destruct (H eq_refl) as (Hok & _).
    apply (Hok "bar"); reflexivity.
  - assert (attempts over_limit > max_attempts over_limit) as Hgt
      by (vm_compute; reflexivity).
    split; [exact Hgt|].
    destruct (attempt_guard_is_strict plain_rubric
                {[ "student_answer" := "bar" ]} plain_system over_limit)
      as (_ & H).
    exact (H Hgt).
Defined.

(** The first answer of a fresh instance. *)
Lemma save_answer_appends_witness :
  attempts fresh <= max_attempts fresh
  /\ exists d self',
       save_answer plain_rubric {[ "student_answer" := "foo" ]} plain_system fresh
         = (Return d, self')
       /\ d !! "success" = Some (VBool true)
       /\ state self' = ASSESSING
       /\ history self' = history fresh ++ [mkAttempt "foo" None None].
Proof.
  assert (attempts fresh <= max_attempts fresh) as Hle
    by (vm_compute; discriminate).
  split; [exact Hle|].
  apply (save_answer_appends plain_rubric {[ "student_answer" := "foo" ]}
           plain_system fresh "foo" Hle); reflexivity.
Defined.

(** A hint given after a score below the maximum. *)
Lemma save_hint_finishes_witness :
  exists d self',
    save_hint {[ "hint" := "try again" ]} plain_system post_assessment
      = (Return d, self')
    /\ d !! "success" = Some (VBool true)
    /\ state self' = DONE
    /\ history self' = [mkAttempt "foo" (Some 1) (Some "try again")].
Proof.
  assert (({[ "hint" := "try again" ]} : payload) !! "hint" = Some "try again")
    as Hg by reflexivity.
  destruct (save_hint_finishes _ plain_system post_assessment "try again"
              eq_refl Hg)
    as (d & self' & Hd & Hok & Hs & Hh & _).
  exists d, self'. repeat split; assumption.
Defined.

(** An unknown action is turned away; a first answer comes back with the
    progress fields. *)
Lemma handle_ajax_envelope_witness :
  handle_ajax decimal_int plain_rubric score_progress score_status
    "reset" ∅ plain_system finished = (Return (Text "Error"), finished)
  /\ exists env self',
       handle_ajax decimal_int plain_rubric score_progress score_status
         "save_answer"
         {[ "student_answer" := "foo"; "assessment" := "3"; "hint" := "none" ]}
         plain_system fresh = (Return (Json env), self')
       /\ env !! "progress_changed"
          = Some (VBool (bool_decide (score_progress self' ≠ score_progress fresh)))
       /\ env !! "progress_status"
          = Some (VStr (score_status (score_progress self'))).
Proof.
  split.
  - destruct (handle_ajax_envelope decimal_int plain_rubric score_progress
                score_status "reset" ∅ plain_system finished) as (H & _).
    apply H. unfold known_actions. intros Hin.
    repeat (apply elem_of_cons in Hin as [Hin|Hin]; [discriminate|]).
    by apply elem_of_nil in Hin.
  - destruct (handle_ajax_envelope decimal_int plain_rubric score_progress
                score_status "save_answer"
                {[ "student_answer" := "foo"; "assessment" := "3";
                   "hint" := "none" ]}
                plain_system fresh) as (_ & _ & H).
    apply H.
    + apply elem_of_cons. by left.
    + eexists. reflexivity.
    + eexists. reflexivity.
    + eexists. reflexivity.
Defined.

(** A score text that is no integer comes back as an error envelope. *)
Lemma misuse_returns_error_envelope_witness :
  misuse decimal_int "save_assessment" {[ "assessment" := "abc" ]} assessing
  /\ exists env,
       handle_ajax decimal_int plain_rubric score_progress score_status
         "save_assessment" {[ "assessment" := "abc" ]} plain_system assessing
         = (Return (Json env), assessing)
       /\ error_envelope env.
Proof.
  assert (misuse decimal_int "save_assessment" {[ "assessment" := "abc" ]}
            assessing) as Hm.
  { right. left. split; [reflexivity|]. right. exists "abc".
    split; reflexivity. }
  split; [exact Hm|].
  destruct (misuse_returns_error_envelope decimal_int plain_rubric
              score_progress score_status "save_assessment"
              {[ "assessment" := "abc" ]} plain_system assessing) as (H & _).
  exact (H Hm).
Defined.

(** C7 as stated fails: a payload without ['assessment'], sent to
    [save_assessment] in state [ASSESSING], raises [KeyError] out of the
    handler and out of [handle_ajax]; no envelope is returned. *)
Lemma payload_without_key_raises :
  save_assessment decimal_int ∅ plain_system assessing
    = (Raise (KeyError "assessment"), assessing)
  /\ handle_ajax decimal_int plain_rubric score_progress score_status
       "save_assessment" ∅ plain_system assessing
     = (Raise (KeyError "assessment"), assessing)
  /\ ~ (exists env self',
          handle_ajax decimal_int plain_rubric score_progress score_status
            "save_assessment" ∅ plain_system assessing
            = (Return (Json env), self')
          /\ error_envelope env).
Proof.
  assert (handle_ajax decimal_int plain_rubric score_progress score_status
            "save_assessment" ∅ plain_system assessing
          = (Raise (KeyError "assessment"), assessing)) as Hraise
    by (vm_compute; reflexivity).
  split; [vm_compute; reflexivity|]. split; [exact Hraise|].
  intros (env & self' & Henv & _). rewrite Hraise in Henv. discriminate.
Qed.

(** A persisted state outside the four has no view; a finished instance
    has. *)
Lemma view_assembly_state_check_witness :
  ((state corrupted ∉ defined_states)
   /\ (exists msg, get_rubric_html plain_rubric plain_system corrupted
                   = (Raise (ValueError msg), corrupted))
   /\ (exists msg, get_hint_html plain_system corrupted
                   = (Raise (ValueError msg), corrupted)))
  /\ (state finished ∈ defined_states
   /\ (exists html, get_rubric_html plain_rubric plain_system finished
                    = (Return html, finished))
   /\ (exists html, get_hint_html plain_system finished
                    = (Return html, finished))).
Proof.
  assert (state corrupted ∉ defined_states) as Hout.
  { unfold defined_states. simpl. intros Hin.
    repeat (apply elem_of_cons in Hin as [Hin|Hin]; [discriminate|]).
    by apply elem_of_nil in Hin. }
  assert (state finished ∈ defined_states) as Hin.
  { unfold defined_states. simpl.
    do 3 (apply elem_of_cons; right). apply elem_of_cons. by left. }
  split.
  - split; [exact Hout|].
    destruct (view_assembly_state_check plain_rubric plain_system corrupted)
      as (H & _).
    exact (H Hout).
  - split; [exact Hin|].
    destruct (view_assembly_state_check plain_rubric plain_system finished)
      as (_ & H).
    exact (H Hin).
Defined.

(** A definition without [hintprompt], one with two [submitmessage]s, and a
    well-formed one. *)
Lemma definition_from_xml_validates_witness :
  (exists child,
     child ∈ ["submitmessage"; "hintprompt"]
     /\ definition_from_xml text_of no_hintprompt plain_system
        = Raise (ValueError (exactly_one_message child)))
  /\ (exists child,
     child ∈ ["submitmessage"; "hintprompt"]
     /\ definition_from_xml text_of two_submitmessages plain_system
        = Raise (ValueError (exactly_one_message child)))
  /\ (exists d,
     definition_from_xml text_of well_formed plain_system = Return d
     /\ dom d = {[ "submitmessage"; "hintprompt" ]}
     /\ d !! "submitmessage" = Some "Save successful."
     /\ d !! "hintprompt" = Some "What hint would you give?").
Proof.
  split; [|split].
  - destruct (definition_from_xml_validates decimal_int plain_rubric text_of
                score_progress score_status no_hintprompt plain_system)
      as (H & _).
    apply H. right. vm_compute. discriminate.
  - destruct (definition_from_xml_validates decimal_int plain_rubric text_of
                score_progress score_status two_submitmessages plain_system)
      as (H & _).
    apply H. left. vm_compute. discriminate.
  - destruct (definition_from_xml_validates decimal_int plain_rubric text_of
                score_progress score_status well_formed plain_system)
      as (_ & H & _).
    destruct H as (d & sm & hp & Hd & Hdom & Hsm & Hhp & H1 & H2);
      [reflexivity..|].
    exists d. split; [exact Hd|]. split; [exact Hdom|].
    injection Hsm as <-. injection Hhp as <-. split; assumption.
Defined.

(** Beyond the limit the answer is blocked in state [ASSESSING] too. *)
Lemma attempt_guard_precedes_state_check_witness :
  attempts over_limit > max_attempts over_limit
  /\ state over_limit <> INITIAL
  /\ save_answer plain_rubric ∅ plain_system over_limit
       = (Return ({[ "success" := VBool false;
                     "error" := VStr "Too many attempts." ]} : dict), over_limit)
  /\ (save_answer plain_rubric ∅ plain_system over_limit
       <> out_of_sync_error ∅ over_limit).
Proof.
  assert (attempts over_limit > max_attempts over_limit) as Hgt
    by (vm_compute; reflexivity).
  split; [exact Hgt|]. split; [simpl; discriminate|].
  destruct (attempt_guard_precedes_state_check plain_rubric ∅ plain_system
              over_limit) as (H & _).
  exact (H Hgt).
Defined.

(** ** The further properties at concrete inputs *)

(** [handle_ajax] with the concrete collaborators. *)
Abbreviation ajax :=
  (handle_ajax decimal_int plain_rubric score_progress score_status).

(** A second answer sent to a finished instance changes nothing. *)
Lemma failed_call_changes_nothing_witness :
  (ajax "save_answer" {[ "student_answer" := "again" ]} plain_system finished).2
  = finished.
Proof.
  apply (failed_call_changes_nothing decimal_int plain_rubric score_progress
           score_status "save_answer" {[ "student_answer" := "again" ]}
           plain_system finished
           (ajax "save_answer" {[ "student_answer" := "again" ]} plain_system
              finished).1).
  - apply surjective_pairing.
  - intros env H. vm_compute in H. injection H as <-. vm_compute. discriminate.
Defined.

(** The envelope of a score that is no integer has [success] false and an
    [error]. *)
Lemma envelope_success_and_error_witness :
  exists env self',
    ajax "save_assessment" {[ "assessment" := "abc" ]} plain_system assessing
      = (Return (Json env), self')
    /\ exists b, env !! "success" = Some (VBool b)
         /\ (is_Some (env !! "error") <-> b = false).
Proof.
  do 2 eexists. split; [vm_compute; reflexivity|].
  apply (envelope_success_and_error decimal_int plain_rubric score_progress
           score_status "save_assessment" {[ "assessment" := "abc" ]}
           plain_system assessing _ assessing).
  vm_compute. reflexivity.
Defined.

(** A first answer moves [INITIAL] to [ASSESSING]. *)
Abbreviation answered :=
  ((ajax "save_answer" {[ "student_answer" := "foo" ]} plain_system fresh).2).

Lemma handle_ajax_follows_state_table_witness :
  state answered = state fresh
  \/ (state fresh = INITIAL /\ state answered = ASSESSING)
  \/ (state fresh = ASSESSING
      /\ (state answered = POST_ASSESSMENT \/ state answered = DONE))
  \/ (state fresh = POST_ASSESSMENT /\ state answered = DONE).
Proof.
  apply (handle_ajax_follows_state_table decimal_int plain_rubric score_progress
           score_status "save_answer" {[ "student_answer" := "foo" ]}
           plain_system fresh
           (ajax "save_answer" {[ "student_answer" := "foo" ]} plain_system
              fresh).1).
  apply surjective_pairing.
Defined.

(** A hint sent to an instance with a corrupted state changes nothing. *)
Lemma done_and_illegal_states_absorb_witness :
  (ajax "save_post_assessment" {[ "hint" := "try again" ]} plain_system
     corrupted).2 = corrupted.
Proof.
  apply (done_and_illegal_states_absorb decimal_int plain_rubric score_progress
           score_status "save_post_assessment" {[ "hint" := "try again" ]}
           plain_system corrupted
           (ajax "save_post_assessment" {[ "hint" := "try again" ]} plain_system
              corrupted).1).
  - right. unfold defined_states. simpl. intros Hin.
    repeat (apply elem_of_cons in Hin as [Hin|Hin]; [discriminate|]).
    by apply elem_of_nil in Hin.
  - apply surjective_pairing.
Defined.

(** A maximum score keeps the configuration of the instance. *)
Abbreviation scored_three :=
  ((ajax "save_assessment" {[ "assessment" := "3" ]} plain_system assessing).2).

Lemma handle_ajax_keeps_configuration_witness :
  max_attempts scored_three = max_attempts assessing
  /\ _max_score scored_three = _max_score assessing
  /\ prompt scored_three = prompt assessing
  /\ rubric scored_three = rubric assessing
  /\ hint_prompt scored_three = hint_prompt assessing
  /\ submit_message scored_three = submit_message assessing.
Proof.
  apply (handle_ajax_keeps_configuration decimal_int plain_rubric score_progress
           score_status "save_assessment" {[ "assessment" := "3" ]}
           plain_system assessing
           (ajax "save_assessment" {[ "assessment" := "3" ]} plain_system
              assessing).1).
  apply surjective_pairing.
Defined.

(** A score keeps the answers of the history. *)
Abbreviation scored_one :=
  ((ajax "save_assessment" {[ "assessment" := "1" ]} plain_system assessing).2).

Lemma handle_ajax_keeps_answers_witness :
  (length (history scored_one) = length (history assessing)
   /\ answer <$> history scored_one = answer <$> history assessing)
  \/ (exists a, history scored_one = history assessing ++ [mkAttempt a None None]).
Proof.
  apply (handle_ajax_keeps_answers decimal_int plain_rubric score_progress
           score_status "save_assessment" {[ "assessment" := "1" ]}
           plain_system assessing
           (ajax "save_assessment" {[ "assessment" := "1" ]} plain_system
              assessing).1).
  apply surjective_pairing.
Defined.

(** An answer beyond the attempt limit reports no change of progress. *)
Lemma failure_reports_no_progress_witness :
  exists env self',
    ajax "save_answer" {[ "student_answer" := "bar" ]} plain_system over_limit
      = (Return (Json env), self')
    /\ env !! "success" = Some (VBool false)
    /\ env !! "progress_changed" = Some (VBool false).
Proof.
  do 2 eexists. split; [vm_compute; reflexivity|].
  assert (forall A B : Prop, A -> (A -> B) -> A /\ B) as Hboth by tauto.
  apply Hboth; [vm_compute; reflexivity|].
  apply (failure_reports_no_progress decimal_int plain_rubric score_progress
           score_status "save_answer" {[ "student_answer" := "bar" ]}
           plain_system over_limit _ over_limit).
  vm_compute. reflexivity.
Defined.


(** The cycle "foo", "1", "try again" from a fresh instance. *)
Lemma full_cycle_witness :
  exists d self',
    (save_answer plain_rubric {[ "student_answer" := "foo" ]} plain_system ;;
     save_assessment decimal_int {[ "assessment" := "1" ]} plain_system ;;
     save_hint {[ "hint" := "try again" ]} plain_system) fresh
      = (Return d, self')
    /\ d !! "success" = Some (VBool true)
    /\ state self' = DONE
    /\ history self' = history fresh ++ [mkAttempt "foo" (Some 1) (Some "try again")].
Proof.
  assert (attempts fresh <= max_attempts fresh) as Hle
    by (vm_compute; discriminate).
  destruct (full_cycle decimal_int plain_rubric
              {[ "student_answer" := "foo" ]} {[ "assessment" := "1" ]}
              {[ "hint" := "try again" ]} plain_system fresh
              "foo" "1" 1 "try again" Hle)
    as (_ & H); [reflexivity..|].
  apply H. vm_compute. discriminate.
Defined.

(** The envelope of the score "1" carries the hint view. *)
Lemma save_assessment_envelope_witness :
  exists d self',
    save_assessment decimal_int {[ "assessment" := "1" ]} plain_system assessing
      = (Return d, self')
    /\ d !! "state" = Some (VState (state self'))
    /\ (state self' = DONE ->
        d !! "message_html" = Some (VStr (get_message_html self'))
        /\ d !! "allow_reset" = Some (VBool (_allow_reset self'))
        /\ d !! "hint_html" = None)
    /\ (state self' = POST_ASSESSMENT ->
        (exists html, get_hint_html plain_system self' = (Return html, self')
                      /\ d !! "hint_html" = Some (VStr html))
        /\ d !! "message_html" = None
        /\ d !! "allow_reset" = None).
Proof.
  apply (save_assessment_envelope decimal_int {[ "assessment" := "1" ]}
           plain_system assessing "1" 1); reflexivity.
Defined.

(** The envelope of a first answer carries the editable rubric. *)
Lemma save_answer_envelope_witness :
  exists d self' ctx,
    save_answer plain_rubric {[ "student_answer" := "foo" ]} plain_system fresh
      = (Return d, self')
    /\ dom d = {[ "success"; "rubric_html" ]}
    /\ get_rubric_html plain_rubric plain_system self'
       = (Return (render_template plain_system "self_assessment_rubric.html" ctx),
          self')
    /\ d !! "rubric_html"
       = Some (VStr (render_template plain_system
                       "self_assessment_rubric.html" ctx))
    /\ ctx !! "read_only" = Some (VBool false).
Proof.
  apply (save_answer_envelope plain_rubric {[ "student_answer" := "foo" ]}
           plain_system fresh "foo"); [vm_compute; discriminate|reflexivity..].
Defined.

(** The rubric of a finished instance is read-only. *)
Lemma rubric_view_modes_witness :
  exists ctx,
    get_rubric_html plain_rubric plain_system finished
      = (Return (render_template plain_system "self_assessment_rubric.html" ctx),
         finished)
    /\ ctx !! "rubric" = Some (VStr (plain_rubric (rubric finished) plain_system))
    /\ ctx !! "max_score" = Some (VInt (_max_score finished))
    /\ ctx !! "read_only" = Some (VBool (bool_decide (state finished ≠ ASSESSING))).
Proof.
  apply (proj2 (rubric_view_modes plain_rubric plain_system finished)).
  simpl. do 2 (apply elem_of_cons; right). apply elem_of_cons. by left.
Defined.

(** The hint view of a finished instance shows the hint given. *)
Lemma hint_view_modes_witness :
  exists ctx,
    get_hint_html plain_system finished
      = (Return (render_template plain_system "self_assessment_hint.html" ctx),
         finished)
    /\ ctx !! "hint_prompt" = Some (VStr (hint_prompt finished))
    /\ ctx !! "hint"
       = Some (VStr (default "" (latest_post_assessment plain_system finished)))
    /\ ctx !! "read_only" = Some (VBool true).
Proof.
  apply (proj2 (proj2 (hint_view_modes plain_system finished))). reflexivity.
Defined.

(** A fresh instance has no message. *)
Lemma message_view_empty_iff_witness : get_message_html fresh = "".
Proof.
  apply (proj2 (message_view_empty_iff fresh)). simpl. discriminate.
Defined.


(** The page of an instance back in [INITIAL] hides the earlier answer. *)
Lemma get_html_previous_answer_witness :
  latest_answer retrying = Some "foo"
  /\ exists ctx,
       get_html plain_rubric plain_system retrying
         = (Return (render_template plain_system "self_assessment_prompt.html" ctx),
            retrying)
       /\ ctx !! "previous_answer" = Some (VStr "")
       /\ ctx !! "initial_rubric" = Some (VStr "")
       /\ ctx !! "initial_hint" = Some (VStr "")
       /\ ctx !! "initial_message" = Some (VStr "")
       /\ ctx !! "allow_reset" = Some (VBool false).
Proof.
  split; [reflexivity|].
  apply (proj1 (get_html_previous_answer plain_rubric plain_system retrying)).
  reflexivity.
Defined.

(** A well-formed definition, loaded and set up. *)
Lemma setup_after_load_witness :
  definition_from_xml text_of well_formed plain_system = Return loaded_definition
  /\ exists sm hp,
       xpath "submitmessage" well_formed = [sm]
       /\ xpath "hintprompt" well_formed = [hp]
       /\ setup_response text_of plain_system loaded_definition unconfigured
          = Return (mkModule INITIAL [] 0 2 3 "Why?" "Because."
                      (text_of hp) (text_of sm)).
Proof.
  assert (definition_from_xml text_of well_formed plain_system
          = Return loaded_definition) as Hload by (vm_compute; reflexivity).
  split; [exact Hload|].
  exact (setup_after_load text_of well_formed plain_system loaded_definition
           unconfigured Hload).
Defined.

(** An empty definition fails on [submitmessage]. *)
Lemma setup_response_keys_witness :
  setup_response text_of plain_system ∅ unconfigured
  = Raise (KeyError "submitmessage").
Proof.
  destruct (setup_response_keys text_of plain_system ∅ unconfigured)
    as (_ & H & _).
  apply H. reflexivity.
Defined.

(** The loaded definition, written out and loaded again. *)
Lemma definition_to_xml_loads_back_witness :
  definition_to_xml flat_fromstring loaded_definition
  = Built (Element "selfassessment" ""
             [Element "submitmessage" "Save successful." [];
              Element "hintprompt" "What hint would you give?" []])
  /\ definition_from_xml text_of
       (Element "selfassessment" ""
          [Element "submitmessage" "Save successful." [];
           Element "hintprompt" "What hint would you give?" []]) plain_system
     = Return loaded_definition.
Proof.
  destruct (definition_to_xml_loads_back text_of flat_fromstring
              loaded_definition plain_system
              "Save successful." "What hint would you give?"
              (Element "submitmessage" "Save successful." [])
              (Element "hintprompt" "What hint would you give?" []))
    as (Hb & Hl & _); [vm_compute; reflexivity..|].
  split; [exact Hb|]. rewrite Hl. reflexivity.
Defined.

(** Two [submitmessage] children are reported under that tag. *)
Lemma definition_from_xml_outcomes_witness :
  definition_from_xml text_of two_submitmessages plain_system
    = Raise (ValueError (exactly_one_message "submitmessage"))
  /\ ((ValueError (exactly_one_message "submitmessage")
       = ValueError (exactly_one_message "submitmessage")
       /\ length (xpath "submitmessage" two_submitmessages) <> 1%nat)
      \/ (ValueError (exactly_one_message "submitmessage")
          = ValueError (exactly_one_message "hintprompt")
          /\ length (xpath "submitmessage" two_submitmessages) = 1%nat
          /\ length (xpath "hintprompt" two_submitmessages) <> 1%nat)).
Proof.
  assert (definition_from_xml text_of two_submitmessages plain_system
          = Raise (ValueError (exactly_one_message "submitmessage"))) as Hr
    by (vm_compute; reflexivity).
  split; [exact Hr|].
  exact (proj2 (definition_from_xml_outcomes text_of two_submitmessages
                  plain_system) _ Hr).
Defined.

(** A note between the two children, under another root, loads the same. *)
Lemma definition_from_xml_ignores_the_rest_witness :
  definition_from_xml text_of
    (Element "selfassessment" ""
       ([Element "hintprompt" "What hint would you give?" []]
        ++ Element "note" "draft" []
           :: [Element "submitmessage" "Save successful." []]))
    plain_system
  = definition_from_xml text_of
      (Element "problem" "text"
         ([Element "hintprompt" "What hint would you give?" []]
          ++ [Element "submitmessage" "Save successful." []]))
      plain_system.
Proof.
  apply (definition_from_xml_ignores_the_rest text_of plain_system);
    simpl; discriminate.
Defined.

(** What is built from the loaded definition. *)
Lemma definition_to_xml_built_witness :
  exists sm hp e1 e2,
    loaded_definition !! "submitmessage" = Some sm
    /\ loaded_definition !! "hintprompt" = Some hp
    /\ flat_fromstring (child_str "submitmessage" sm) = Some e1
    /\ flat_fromstring (child_str "hintprompt" hp) = Some e2
    /\ Element "selfassessment" ""
         [Element "submitmessage" "Save successful." [];
          Element "hintprompt" "What hint would you give?" []]
       = Element "selfassessment" "" [e1; e2].
Proof.
  apply (definition_to_xml_built flat_fromstring loaded_definition).
  vm_compute. reflexivity.
Defined.

(** The envelope of a hint carries the message. *)
Lemma save_hint_envelope_witness :
  exists d self',
    save_hint {[ "hint" := "try again" ]} plain_system post_assessment
      = (Return d, self')
    /\ dom d = {[ "success"; "message_html"; "allow_reset" ]}
    /\ d !! "message_html"
       = Some (VStr ("<div class=" +:+ dquote +:+ "save_message" +:+ dquote
                     +:+ ">" +:+ submit_message post_assessment +:+ "</div>"))
    /\ d !! "allow_reset" = Some (VBool (_allow_reset self')).
Proof.
  apply (save_hint_envelope {[ "hint" := "try again" ]} plain_system
           post_assessment "try again"); reflexivity.
Defined.

(** A first answer succeeded, so it was sent in [INITIAL]. *)
Lemma success_only_in_required_state_witness :
  exists env self',
    ajax "save_answer" {[ "student_answer" := "foo" ]} plain_system fresh
      = (Return (Json env), self')
    /\ (("save_answer" = "save_answer" /\ state fresh = INITIAL
         /\ attempts fresh <= max_attempts fresh
         /\ is_Some (({[ "student_answer" := "foo" ]} : payload)
                       !! "student_answer"))
        \/ ("save_answer" = "save_assessment" /\ state fresh = ASSESSING
            /\ exists a z, ({[ "student_answer" := "foo" ]} : payload)
                             !! "assessment" = Some a
                           /\ decimal_int a = Some z)
        \/ ("save_answer" = "save_post_assessment"
            /\ state fresh = POST_ASSESSMENT
            /\ is_Some (({[ "student_answer" := "foo" ]} : payload) !! "hint"))).
Proof.
  do 2 eexists. split; [vm_compute; reflexivity|].
  eapply (success_only_in_required_state decimal_int plain_rubric score_progress
            score_status "save_answer" {[ "student_answer" := "foo" ]}
            plain_system fresh).
  - vm_compute. reflexivity.
  - vm_compute. reflexivity.
Defined.
